(** * Pinniped concierge: start-up wiring, impersonation proxy and test helpers

    A shallow embedding of [internal/concierge/server/server.go] and of
    [test/library/access.go].  Go pointers to shared mutable objects (the
    authenticator cache, the two dynamic certificate providers) are locations
    of an explicit heap, so that aliasing between the consumers of one object
    is visible; fallible calls return a [result]; the collaborators that live
    outside the two files (configuration loading, controller preparation, the
    API machinery, key generation) are fields of an environment record. *)

From stdpp Require Import gmap strings list fin_maps.
From Stdlib Require Import ZArith Lia.

Local Open Scope Z_scope.
Local Open Scope string_scope.

(** ** Go values shared by both files *)

(** Go's [error]: an error made by a collaborator, or [fmt.Errorf("<prefix>: %w", err)]. *)
Inductive error : Type :=
| ErrNew (msg : string)
| Errorf (prefix : string) (wrapped : error).

Inductive result (A : Type) : Type :=
| Ok (a : A)
| Err (e : error).
Arguments Ok {A} a.
Arguments Err {A} e.

(** [errors.Unwrap]. *)
Definition Unwrap (e : error) : option error :=
  match e with
  | ErrNew _ => None
  | Errorf _ inner => Some inner
  end.

(** [time.Duration] is an int64 count of nanoseconds; products wrap around. *)
Definition int64_wrap (z : Z) : Z := (z + 2 ^ 63) mod 2 ^ 64 - 2 ^ 63.
Definition Second : Z := 1000000000.
Definition Hour : Z := 3600 * Second.
Definition Duration_mul (a b : Z) : Z := int64_wrap (a * b).

Definition loc := positive.

(** ** Data model *)

(** Key of the authenticator cache. *)
Record AuthenticatorID : Type := mkAuthenticatorID {
  id_kind : string;
  id_apiGroup : string;
  id_name : string
}.

#[global] Instance AuthenticatorID_eq_dec : EqDecision AuthenticatorID.
Proof. solve_decision. Defined.

#[global] Instance AuthenticatorID_countable : Countable AuthenticatorID.
Proof.
  refine (inj_countable'
            (λ i, (id_kind i, id_apiGroup i, id_name i))
            (λ t, mkAuthenticatorID t.1.1 t.1.2 t.2) _).
  by intros [].
Defined.

Record Identity : Type := mkIdentity {
  username : string;
  groups : list string
}.

(** An authenticator turns a presented token into an identity, or reports
    that the token does not authenticate. *)
Definition Authenticator : Type := string → option Identity.

(** [tls.Certificate]: a chain and the private key that belongs to it. *)
Record tls_Certificate : Type := mkCert {
  cert_chain : list string;
  cert_key : string
}.

#[global] Instance tls_Certificate_eq_dec : EqDecision tls_Certificate.
Proof. solve_decision. Defined.

(** The objects that [runServer] allocates and shares by pointer. *)
Inductive object : Type :=
| ObjCache (entries : gmap AuthenticatorID Authenticator)
| ObjProvider (cell : option tls_Certificate).

Abbreviation Heap := (gmap loc object).

Definition alloc (o : object) (h : Heap) : loc * Heap :=
  let l := fresh (dom h) in (l, <[l := o]> h).

(** Modelled from the spec: the authenticator cache of package [authncache],
    which is not among the files under study (section 4.1): a mapping from
    authenticator id to authenticator with [Get], [Store] and [Delete], each
    acting on the cache object at the given location. *)
Module authncache.
(** [authncache.New()]: a fresh, empty cache. *)
Definition New (h : Heap) : loc * Heap := alloc (ObjCache ∅) h.

Definition Get (h : Heap) (c : loc) (id : AuthenticatorID) : option Authenticator :=
  match h !! c with
  | Some (ObjCache m) => m !! id
  | _ => None
  end.

Definition Store (c : loc) (id : AuthenticatorID) (a : Authenticator) (h : Heap) : Heap :=
  match h !! c with
  | Some (ObjCache m) => <[c := ObjCache (<[id := a]> m)]> h
  | _ => h
  end.

Definition Delete (c : loc) (id : AuthenticatorID) (h : Heap) : Heap :=
  match h !! c with
  | Some (ObjCache m) => <[c := ObjCache (delete id m)]> h
  | _ => h
  end.
End authncache.

(** Modelled from the spec: the dynamic certificate provider of package
    [dynamiccert], which is not among the files under study (section 4.2): a
    cell that is unset or holds one complete pair, with [CurrentCert], [Set]
    and [UnsetCert]. *)
Module dynamiccert.
(** [dynamiccert.New()]: a fresh provider in the unset state. *)
Definition New (h : Heap) : loc * Heap := alloc (ObjProvider None) h.

Definition CurrentCert (h : Heap) (p : loc) : option tls_Certificate :=
  match h !! p with
  | Some (ObjProvider cell) => cell
  | _ => None
  end.

Definition Set_ (p : loc) (pair : tls_Certificate) (h : Heap) : Heap :=
  match h !! p with
  | Some (ObjProvider _) => <[p := ObjProvider (Some pair)]> h
  | _ => h
  end.

Definition UnsetCert (p : loc) (h : Heap) : Heap :=
  match h !! p with
  | Some (ObjProvider _) => <[p := ObjProvider None]> h
  | _ => h
  end.
End dynamiccert.

(** ** Collaborator types used by [server.go] *)

Record App : Type := mkApp {
  configPath : string;
  downwardAPIPath : string
}.

(** The fields of [concierge.Config] that [runServer] reads (pointers already
    dereferenced, as [runServer] does). *)
Record concierge_Config : Type := mkConfig {
  cfg_APIGroupSuffix : string;
  cfg_NamesConfig : string;
  cfg_Labels : gmap string string;
  cfg_KubeCertAgentConfig : string;
  cfg_DiscoveryURL : option string;
  cfg_DurationSeconds : Z;
  cfg_RenewBeforeSeconds : Z
}.

Record PodInfo : Type := mkPodInfo {
  pod_Namespace : string
}.

Record controllermanager_Config : Type := mkControllersConfig {
  ServerInstallationInfo : PodInfo;
  APIGroupSuffix : string;
  NamesConfig : string;
  Labels : gmap string string;
  KubeCertAgentConfig : string;
  DiscoveryURLOverride : option string;
  DynamicServingCertProvider : loc;
  DynamicSigningCertProvider : loc;
  ServingCertDuration : Z;
  ServingCertRenewBefore : Z;
  AuthenticatorCache : loc
}.

(** The closure returned by [PrepareControllers]: it remembers what it was
    prepared with. *)
Record StartControllersFunc : Type := mkStartControllers {
  prepared_with : controllermanager_Config
}.

(** [dynamiccertauthority.New(provider)]: a certificate issuer that signs with
    whatever pair the provider currently holds. *)
Inductive CertIssuer : Type :=
| dynamiccertauthority_New (provider : loc).

Record RecommendedOptions : Type := mkOptions {
  opt_etcdPrefix : string;
  opt_Etcd : option string;
  opt_GeneratedCert : option loc;
  opt_BindPort : Z
}.

Record RecommendedConfig : Type := mkRecommendedConfig {
  SecureServing_Cert : option loc;
  SecureServing_Port : Z
}.

Record ExtraConfig : Type := mkExtraConfig {
  extra_Authenticator : loc;
  extra_Issuer : CertIssuer;
  extra_StartControllersPostStartHook : StartControllersFunc
}.

Record apiserver_Config : Type := mkAPIServerConfig {
  GenericConfig : RecommendedConfig;
  Extra : ExtraConfig
}.

(** The server made by [aggregatedAPIServerConfig.Complete().New()]. *)
Record AggregatedServer : Type := mkAggregatedServer {
  server_config : apiserver_Config
}.

Record pkix_Name : Type := mkName {
  CommonName : string
}.

Record CA : Type := mkCA {
  ca_subject : pkix_Name;
  ca_ttl : Z;
  ca_pair : tls_Certificate
}.

(** Modelled from the spec: the impersonation proxy built by
    [impersonator.New], whose package is not among the files under study.  It
    keeps the cache it was given, the name of its logger and the upstream
    endpoint it discovered. *)
Record Proxy : Type := mkProxy {
  proxy_cache : loc;
  proxy_log : string;
  proxy_upstream : string
}.

(** [tls.Config], restricted to the fields that decide which certificate a
    handshake presents.  [GetCertificate] is the handshake-time hook. *)
Record tls_Config : Type := mkTLSConfig {
  MinVersion : Z;
  Certificates : list tls_Certificate;
  GetCertificate : option (Heap → result tls_Certificate)
}.

Record http_Server : Type := mkHTTPServer {
  Addr : string;
  Handler : Proxy;
  TLSConfig : tls_Config
}.

Definition VersionTLS12 : Z := 771.

(** What the process has done so far that an observer can see. *)
Inductive Event : Type :=
| EvListenAndServeTLS (srv : http_Server)
| EvRun (srv : AggregatedServer)
| EvErrorS (err : error) (msg : string).

(** A spawned goroutine, as the closure it runs. *)
Inductive Goroutine : Type :=
| GoServeImpersonationProxy (srv : http_Server).

Record World : Type := mkWorld {
  heap : Heap;
  goroutines : list Goroutine;
  events : list Event
}.

(** The collaborators outside the two files.  Each one decides, as a function
    of its arguments, whether the call fails and what it yields. *)
Record Env : Type := mkEnv {
  concierge_FromPath : string → result concierge_Config;
  downward_Load : string → result PodInfo;
  controllermanager_PrepareControllers :
    controllermanager_Config → result StartControllersFunc;
  loginv1alpha1_GroupName : string;
  apigroup_Make : string → string → option string;
  options_ApplyTo_err : RecommendedOptions → option error;
  apiserver_New_err : apiserver_Config → option error;
  certauthority_New : pkix_Name → Z → result CA;
  certauthority_Issue :
    CA → pkix_Name → list string → list string → Z → result tls_Certificate;
  impersonator_New_upstream : result string;
  http_ListenAndServeTLS : http_Server → option error;
  genericapiserver_Run : AggregatedServer → option error
}.

(** ** A small error-and-state monad for [runServer] *)

Definition M (A : Type) : Type := World → result A * World.

Definition ret {A} (a : A) : M A := λ w, (Ok a, w).

Definition bind {A B} (m : M A) (f : A → M B) : M B :=
  λ w, match m w with
       | (Ok a, w') => f a w'
       | (Err e, w') => (Err e, w')
       end.

Notation "'do' x <~ m ; k" := (bind m (λ x, k))
  (at level 10, x name, m at level 100, k at level 200).

(** [v, err := call(); if err != nil { return fmt.Errorf("<prefix>: %w", err) }] *)
Definition try_wrap {A} (prefix : string) (r : result A) : M A :=
  λ w, match r with
       | Ok a => (Ok a, w)
       | Err e => (Err (Errorf prefix e), w)
       end.

Definition new_cache : M loc :=
  λ w, let '(l, h) := authncache.New (heap w) in
       (Ok l, mkWorld h (goroutines w) (events w)).

Definition new_provider : M loc :=
  λ w, let '(l, h) := dynamiccert.New (heap w) in
       (Ok l, mkWorld h (goroutines w) (events w)).

(** The [go] statement. *)
Definition go (g : Goroutine) : M unit :=
  λ w, (Ok tt, mkWorld (heap w) (goroutines w ++ [g]) (events w)).

Definition emit (ev : Event) : M unit :=
  λ w, (Ok tt, mkWorld (heap w) (goroutines w) (events w ++ [ev])).

(** A Go function of result type [error]: [nil] or the error. *)
Definition returned {A} (r : result A * World) : option error * World :=
  match r with
  | (Ok _, w) => (None, w)
  | (Err e, w) => (Some e, w)
  end.

(** ** [server.go] *)

(** [genericoptions.NewRecommendedOptions(prefix, codec)]: etcd storage on,
    no generated certificate, the default secure port. *)
Definition NewRecommendedOptions (prefix : string) : RecommendedOptions :=
  mkOptions prefix (Some prefix) None 443.

Definition NewRecommendedConfig : RecommendedConfig :=
  mkRecommendedConfig None 0.

(** [recommendedOptions.ApplyTo(serverConfig)].  As the comment in
    [getAggregatedAPIServerConfig] records, it copies
    [SecureServing.ServerCert.GeneratedCert] into [serverConfig.SecureServing.Cert]. *)
Definition ApplyTo (E : Env) (o : RecommendedOptions) (c : RecommendedConfig)
  : result RecommendedConfig :=
  match options_ApplyTo_err E o with
  | Some e => Err e
  | None => Ok (mkRecommendedConfig (opt_GeneratedCert o) (opt_BindPort o))
  end.

Definition getAggregatedAPIServerConfig (E : Env)
    (dynamicCertProvider : loc) (authenticator : loc) (issuer : CertIssuer)
    (startControllersPostStartHook : StartControllersFunc)
    (apiGroupSuffix : string) : result apiserver_Config :=
  match apigroup_Make E (loginv1alpha1_GroupName E) apiGroupSuffix with
  | None =>
      Err (ErrNew ("cannot make api group from " +:+ loginv1alpha1_GroupName E
                     +:+ "/" +:+ apiGroupSuffix))
  | Some apiGroup =>
      let defaultEtcdPathPrefix := "/registry/" +:+ apiGroup in
      let recommendedOptions := NewRecommendedOptions defaultEtcdPathPrefix in
      let recommendedOptions :=
        mkOptions (opt_etcdPrefix recommendedOptions) None
                  (Some dynamicCertProvider) 8443 in
      let serverConfig := NewRecommendedConfig in
      match ApplyTo E recommendedOptions serverConfig with
      | Err e => Err e
      | Ok serverConfig =>
          Ok {| GenericConfig := serverConfig;
                Extra := {| extra_Authenticator := authenticator;
                            extra_Issuer := issuer;
                            extra_StartControllersPostStartHook :=
                              startControllersPostStartHook |} |}
      end
  end.

(** [aggregatedAPIServerConfig.Complete().New()]. *)
Definition apiserver_New (E : Env) (c : apiserver_Config) : result AggregatedServer :=
  match apiserver_New_err E c with
  | Some e => Err e
  | None => Ok (mkAggregatedServer c)
  end.

(** Modelled from the spec: [impersonator.New(cache, log)], whose package is
    not among the files under study.  It fails when the upstream endpoint
    cannot be determined, and otherwise keeps the cache it was handed. *)
Definition impersonator_New (E : Env) (cache : loc) (log : string) : result Proxy :=
  match impersonator_New_upstream E with
  | Err e => Err e
  | Ok upstream => Ok (mkProxy cache log upstream)
  end.

(** The controller configuration literal of lines 130-142. *)
Definition controllersConfig (cfg : concierge_Config) (podInfo : PodInfo)
    (authenticators dynamicServingCertProvider dynamicSigningCertProvider : loc)
  : controllermanager_Config :=
  {| ServerInstallationInfo := podInfo;
     APIGroupSuffix := cfg_APIGroupSuffix cfg;
     NamesConfig := cfg_NamesConfig cfg;
     Labels := cfg_Labels cfg;
     KubeCertAgentConfig := cfg_KubeCertAgentConfig cfg;
     DiscoveryURLOverride := cfg_DiscoveryURL cfg;
     DynamicServingCertProvider := dynamicServingCertProvider;
     DynamicSigningCertProvider := dynamicSigningCertProvider;
     ServingCertDuration := Duration_mul (cfg_DurationSeconds cfg) Second;
     ServingCertRenewBefore := Duration_mul (cfg_RenewBeforeSeconds cfg) Second;
     AuthenticatorCache := authenticators |}.

(** The [http.Server] literal of lines 180-187. *)
Definition impersonationServer (impersonationProxy : Proxy)
    (impersonationCert : tls_Certificate) : http_Server :=
  {| Addr := "0.0.0.0:8444";
     Handler := impersonationProxy;
     TLSConfig := {| MinVersion := VersionTLS12;
                     Certificates := [impersonationCert];
                     GetCertificate := None |} |}.

Definition runServer_body (E : Env) (a : App) : M unit :=
  do cfg <~ try_wrap "could not load config" (concierge_FromPath E (configPath a));
  do podInfo <~ try_wrap "could not read pod metadata"
                     (downward_Load E (downwardAPIPath a));
  do authenticators <~ new_cache;
  do dynamicServingCertProvider <~ new_provider;
  do dynamicSigningCertProvider <~ new_provider;
  do startControllersFunc <~
    try_wrap "could not prepare controllers"
      (controllermanager_PrepareControllers E
         (controllersConfig cfg podInfo authenticators
            dynamicServingCertProvider dynamicSigningCertProvider));
  do aggregatedAPIServerConfig <~
    try_wrap "could not configure aggregated API server"
      (getAggregatedAPIServerConfig E
         dynamicServingCertProvider
         authenticators
         (dynamiccertauthority_New dynamicSigningCertProvider)
         startControllersFunc
         (cfg_APIGroupSuffix cfg));
  do server <~ try_wrap "could not create aggregated API server"
                    (apiserver_New E aggregatedAPIServerConfig);
  do impersonationCA <~
    try_wrap "could not create impersonation CA"
      (certauthority_New E (mkName "test CA") (Duration_mul 24 Hour));
  do impersonationCert <~
    try_wrap "could not create impersonation cert"
      (certauthority_Issue E impersonationCA (mkName "")
         ["impersonation-proxy"] [] (Duration_mul 24 Hour));
  do impersonationProxy <~
    try_wrap "could not create impersonation proxy"
      (impersonator_New E authenticators "impersonation-proxy");
  let impersonationProxyServer :=
    impersonationServer impersonationProxy impersonationCert in
  do _ <~ go (GoServeImpersonationProxy impersonationProxyServer);
  do _ <~ emit (EvRun server);
  (λ w, match genericapiserver_Run E server with
        | None => (Ok tt, w)
        | Some e => (Err e, w)
        end).

Definition runServer (E : Env) (a : App) (w : World) : option error * World :=
  returned (runServer_body E a w).

(** The body of the goroutine spawned at lines 188-192, run on a world. *)
Definition run_goroutine (E : Env) (g : Goroutine) (w : World) : World :=
  match g with
  | GoServeImpersonationProxy srv =>
      let w := mkWorld (heap w) (goroutines w)
                       (events w ++ [EvListenAndServeTLS srv]) in
      match http_ListenAndServeTLS E srv with
      | Some err =>
          mkWorld (heap w) (goroutines w)
                  (events w ++ [EvErrorS err "could not serve impersonation proxy"])
      | None => w
      end
  end.

(** ** Serving certificates *)

(** [crypto/tls]'s choice of the certificate presented in a handshake: the
    [GetCertificate] hook is consulted when it is set and either no static
    certificate is configured or the client sent a server name; otherwise
    the static list is used, and an empty list is refused. *)
Definition presented_certificate (c : tls_Config) (h : Heap) (serverName : string)
  : result tls_Certificate :=
  match GetCertificate c, Certificates c with
  | Some hook, [] => hook h
  | Some hook, first :: _ =>
      if decide (serverName = "") then Ok first else hook h
  | None, [] => Err (ErrNew "tls: no certificates configured")
  | None, first :: _ => Ok first
  end.

(** What a client of the aggregated API server observes. *)
Inductive ServeOutcome : Type :=
| Unavailable
| ServedWith (pair : tls_Certificate).

(** Modelled from the spec: how the API machinery, which is not among the
    files under study, serves with the provider installed as
    [SecureServing.Cert].  The provider is read at each request; while it
    returns no certificate the answer is "the server is currently unable to
    handle the request", and once it returns one the request is served with
    it.  Without an installed provider the behaviour is out of scope. *)
Definition aggregated_serve (srv : AggregatedServer) (h : Heap) : option ServeOutcome :=
  match SecureServing_Cert (GenericConfig (server_config srv)) with
  | None => None
  | Some p =>
      match dynamiccert.CurrentCert h p with
      | None => Some Unavailable
      | Some current => Some (ServedWith current)
      end
  end.

(** ** The impersonation proxy handler *)

Module impersonator.

Abbreviation Header := (gmap string (list string)).

Record Request : Type := mkRequest {
  Method : string;
  Path : string;
  RawQuery : string;
  Headers : Header;
  Body : string
}.

Record Response : Type := mkResponse {
  StatusCode : Z;
  RespHeaders : Header;
  RespBody : string
}.

(** [http.Header]: [Values], [Del], [Set] and [Add]. *)
Definition Values (h : Header) (key : string) : list string :=
  default [] (h !! key).
Definition Del (key : string) (h : Header) : Header := delete key h.
Definition Set_ (key value : string) (h : Header) : Header := <[key := [value]]> h.
Definition Add (key value : string) (h : Header) : Header :=
  <[key := (Values h key ++ [value])%list]> h.

Definition ImpersonateUser : string := "Impersonate-User".
Definition ImpersonateGroup : string := "Impersonate-Group".

Fixpoint strip_prefix (p s : string) : option string :=
  match p, s with
  | EmptyString, rest => Some rest
  | String a p', String b s' =>
      if decide (a = b) then strip_prefix p' s' else None
  | String _ _, EmptyString => None
  end.

(** The presented credential: the bearer token of the [Authorization] header. *)
Definition bearer_token (r : Request) : option string :=
  match Values (Headers r) "Authorization" with
  | [] => None
  | v :: _ =>
      match strip_prefix "Bearer " v with
      | Some EmptyString => None
      | other => other
      end
  end.

Definition strip_impersonation (h : Header) : Header :=
  Del ImpersonateGroup (Del ImpersonateUser h).

Definition impersonation_headers (ident : Identity) (h : Header) : Header :=
  foldl (λ acc g, Add ImpersonateGroup g acc)
        (Set_ ImpersonateUser (username ident) (strip_impersonation h))
        (groups ident).

(** What the handler does besides answering. *)
Inductive Action : Type :=
| CacheGet (id : AuthenticatorID)
| Authenticate (id : AuthenticatorID) (token : string)
| RoundTrip (upstream : string) (req : Request)
| LogError (e : error).

Definition status (code : Z) (text : string) : Response :=
  mkResponse code ∅ text.

Definition StatusUnauthorized : Z := 401.
Definition StatusBadGateway : Z := 502.

(** Modelled from the spec: the proxy's [ServeHTTP], whose package is not
    among the files under study (section 4.4).  [id] is the authenticator
    the proxy is configured with, [transport] the proxy's own transport to
    the upstream endpoint. *)
Definition ServeHTTP (p : Proxy) (id : AuthenticatorID)
    (transport : Request → result Response) (h : Heap) (r : Request)
  : Response * list Action :=
  match bearer_token r with
  | None => (status StatusUnauthorized "not authenticated", [])
  | Some token =>
      match authncache.Get h (proxy_cache p) id with
      | None => (status StatusUnauthorized "not authenticated", [CacheGet id])
      | Some authenticator =>
          match authenticator token with
          | None =>
              (status StatusUnauthorized "not authenticated",
               [CacheGet id; Authenticate id token])
          | Some ident =>
              let newR := mkRequest (Method r) (Path r) (RawQuery r)
                            (impersonation_headers ident (Headers r)) (Body r) in
              let before := [CacheGet id; Authenticate id token;
                             RoundTrip (proxy_upstream p) newR] in
              match transport newR with
              | Ok resp => (resp, before)
              | Err e => (status StatusBadGateway "bad gateway", (before ++ [LogError e])%list)
              end
          end
      end
  end.

Definition upstream_requests (acts : list Action) : list Request :=
  omap (λ a, match a with RoundTrip _ req => Some req | _ => None end) acts.

Definition authentications (acts : list Action) : list string :=
  omap (λ a, match a with Authenticate _ token => Some token | _ => None end) acts.

End impersonator.

(** ** [test/library/access.go] *)

Module library.

(** An error returned by the Kubernetes client: a [*errors.StatusError]
    with its status code, or any other error. *)
Inductive k8s_error : Type :=
| StatusError (code : Z) (msg : string)
| OtherError (msg : string).

Record ClusterRoleBinding : Type := mkBinding {
  Name : string;
  Subjects : list (string * string * string);
  RoleRef : string * string * string
}.

(** The part of [kubernetes.Interface] the helper uses, over a cluster
    state [S] of the implementer's choice. *)
Class ClusterRoleBindings (S : Type) : Type := {
  Get : S → string → option k8s_error;
  Create : S → ClusterRoleBinding → option k8s_error * S;
  Delete : S → string → option k8s_error * S
}.

Inductive Call : Type :=
| CalledGet (name : string)
| CalledCreate (binding : ClusterRoleBinding)
| CalledDelete (name : string).

(** A function registered with [t.Cleanup], as the closure it is. *)
Inductive CleanupFunc : Type :=
| DeleteBinding (name : string).

(** [*testing.T] together with the cluster behind [adminClient]. *)
Record T (S : Type) : Type := mkT {
  cluster : S;
  calls : list Call;
  cleanups : list CleanupFunc;
  failed : bool
}.
Arguments mkT {S}.
Arguments cluster {S}.
Arguments calls {S}.
Arguments cleanups {S}.
Arguments failed {S}.

Definition StatusNotFound : Z := 404.

Section Helper.
Context {S : Type} `{ClusterRoleBindings S}.

(** A test step: [None] when a [require] assertion stopped the test
    ([t.FailNow]), the value otherwise. *)
Definition Test (A : Type) : Type := T S → option A * T S.

Definition andThen {A B} (m : Test A) (f : A → Test B) : Test B :=
  λ t, match m t with
       | (Some a, t') => f a t'
       | (None, t') => (None, t')
       end.

Definition FailNow {A} : Test A :=
  λ t, (None, mkT (cluster t) (calls t) (cleanups t) true).

Definition require_True (b : bool) : Test unit :=
  λ t, if b then (Some tt, t) else FailNow t.

Definition require_Equal (expected actual : Z) : Test unit :=
  require_True (bool_decide (expected = actual)).

Definition require_NoError (err : option k8s_error) : Test unit :=
  require_True (match err with None => true | Some _ => false end).

Definition client_Get (name : string) : Test (option k8s_error) :=
  λ t, (Some (Get (cluster t) name),
        mkT (cluster t) (calls t ++ [CalledGet name]) (cleanups t) (failed t)).

Definition client_Create (b : ClusterRoleBinding) : Test (option k8s_error) :=
  λ t, let '(err, s) := Create (cluster t) b in
       (Some err, mkT s (calls t ++ [CalledCreate b]) (cleanups t) (failed t)).

Definition client_Delete (name : string) : Test (option k8s_error) :=
  λ t, let '(err, s) := Delete (cluster t) name in
       (Some err, mkT s (calls t ++ [CalledDelete name]) (cleanups t) (failed t)).

Definition Cleanup (f : CleanupFunc) : Test unit :=
  λ t, (Some tt, mkT (cluster t) (calls t) (cleanups t ++ [f]) (failed t)).

Definition addTestClusterRoleBinding (binding : ClusterRoleBinding) : Test unit :=
  andThen (client_Get (Name binding)) (λ err,
  andThen
    (match err with
     | Some err =>
         let isStatus := match err with StatusError _ _ => true | OtherError _ => false end in
         andThen (require_True isStatus) (λ _,
         (* [statusError] is non-nil here: [require.True] has stopped the
            test otherwise, so the second branch below is never reached. *)
         andThen (match err with
                  | StatusError code _ => require_Equal StatusNotFound code
                  | OtherError _ => FailNow
                  end) (λ _,
         andThen (client_Create binding) (λ err,
         require_NoError err)))
     | None => λ t, (Some tt, t)
     end) (λ _,
  Cleanup (DeleteBinding (Name binding)))).

(** The closure registered by [addTestClusterRoleBinding], when the
    test ends. *)
Definition run_cleanup (f : CleanupFunc) : Test unit :=
  match f with
  | DeleteBinding name =>
      andThen (client_Delete name) (λ err, require_NoError err)
  end.

Definition created (t : T S) : list ClusterRoleBinding :=
  omap (λ c, match c with CalledCreate b => Some b | _ => None end) (calls t).

End Helper.

(** *** The callers of [addTestClusterRoleBinding] *)

(** Constants of [k8s.io/api/rbac/v1]. *)
Definition UserKind : string := "User".
Definition GroupKind : string := "Group".
Definition rbac_GroupName : string := "rbac.authorization.k8s.io".

Section Callers.
Context {S : Type} `{ClusterRoleBindings S}.

Definition addTestClusterUserCanViewEverythingRoleBinding (testUsername : string)
  : @Test S unit :=
  addTestClusterRoleBinding
    {| Name := "integration-test-user-readonly-role-binding";
       Subjects := [(UserKind, rbac_GroupName, testUsername)];
       RoleRef := ("ClusterRole", rbac_GroupName, "view") |}.

Definition addTestClusterGroupCanViewEverythingRoleBinding (testGroup : string)
  : @Test S unit :=
  addTestClusterRoleBinding
    {| Name := "integration-test-group-readonly-role-binding";
       Subjects := [(GroupKind, rbac_GroupName, testGroup)];
       RoleRef := ("ClusterRole", rbac_GroupName, "view") |}.

(** The end of a test: [testing.T] runs the registered cleanups, the one
    registered last first, and runs each of them even when an earlier one
    stopped with [FailNow]. *)
Fixpoint runEach (fs : list CleanupFunc) (t : T S) : T S :=
  match fs with
  | [] => t
  | f :: rest => runEach rest (run_cleanup f t).2
  end.

Definition runCleanups (t : T S) : T S :=
  runEach (rev (cleanups t)) (mkT (cluster t) (calls t) [] (failed t)).

(** A cluster that stores role bindings by name as the Kubernetes API does:
    [present s n] tells whether state [s] holds a binding named [n]. *)
Record Lawful (present : S → string → bool) : Prop := {
  get_present : ∀ s n, present s n = true → Get s n = None;
  get_absent : ∀ s n, present s n = false →
    ∃ msg, Get s n = Some (StatusError StatusNotFound msg);
  create_absent : ∀ s b, present s (Name b) = false →
    ∃ s', Create s b = (None, s') ∧
          ∀ n, present s' n = if decide (n = Name b) then true else present s n;
  delete_present : ∀ s n, present s n = true →
    ∃ s', Delete s n = (None, s') ∧
          ∀ m, present s' m = if decide (m = n) then false else present s m;
  delete_absent : ∀ s n, present s n = false →
    ∃ e s', Delete s n = (Some e, s') ∧ ∀ m, present s' m = present s m
}.

End Callers.

(** *** [AccessAsUserTest] and [AccessAsGroupTest] *)

(** What [Namespaces().List] returned: the list (nil or its items, by name)
    and the error. *)
Record ListResult : Type := mkListResult {
  list_response : option (list string);
  list_err : option k8s_error
}.

(** The part of [clientUnderTest] the tests use. *)
Class Namespaces (S : Type) : Type := {
  ListNamespaces : S → ListResult * S
}.

(** A running access test: the test so far and what each [List] returned. *)
Record AT (S : Type) : Type := mkAT {
  base : T S;
  listed : list ListResult
}.
Arguments mkAT {S}.
Arguments base {S}.
Arguments listed {S}.

Section AccessTests.
Context {S : Type} `{ClusterRoleBindings S} `{Namespaces S}.

Definition AccessTest (A : Type) : Type := AT S → option A * AT S.

Definition thenA {A B} (m : AccessTest A) (f : A → AccessTest B) : AccessTest B :=
  λ a, match m a with
       | (Some x, a') => f x a'
       | (None, a') => (None, a')
       end.

Definition lift {A} (m : @Test S A) : AccessTest A :=
  λ a, let '(r, t) := m (base a) in (r, mkAT t (listed a)).

(** The closure [canListNamespaces]: one [List] by the client under test;
    its two results are assigned to the variables the closure captured. *)
Definition canListNamespaces (a : AT S) : bool * ListResult * AT S :=
  let '(res, s) := ListNamespaces (cluster (base a)) in
  (match list_err res with None => true | Some _ => false end,
   res,
   mkAT (mkT s (calls (base a)) (cleanups (base a)) (failed (base a)))
        (listed a ++ [res])).

(** [assert.Eventually]'s polling: the condition is evaluated once per tick,
    one evaluation at a time, until it holds; [ticks] is the number of
    evaluations that fit before the timeout. *)
Fixpoint poll (ticks : nat) (vars : ListResult) (a : AT S) : bool * ListResult * AT S :=
  match ticks with
  | O => (false, vars, a)
  | Datatypes.S n =>
      let '(ok, vars', a') := canListNamespaces a in
      if ok then (true, vars', a') else poll n vars' a'
  end.

(** [assert.Eventually(t, canListNamespaces, accessRetryTimeout,
    accessRetryInterval)]: when the condition never held the assertion fails,
    which marks the test failed without stopping it. *)
Definition Eventually (ticks : nat) (vars : ListResult) : AccessTest ListResult :=
  λ a, let '(ok, vars', a') := poll ticks vars a in
       if ok then (Some vars', a')
       else (Some vars',
             mkAT (mkT (cluster (base a')) (calls (base a')) (cleanups (base a')) true)
                  (listed a')).

Definition require_NotNil {A} (p : option A) : @Test S unit :=
  require_True (match p with Some _ => true | None => false end).

Definition require_NotEmpty {A} (l : list A) : @Test S unit :=
  require_True (match l with [] => false | _ :: _ => true end).

(** The checks after the polling, common to both tests: [require.NoError],
    [require.NotNil] and [require.NotEmpty] on the captured variables. *)
Definition requireNamespaces (vars : ListResult) : AccessTest unit :=
  thenA (lift (require_NoError (list_err vars))) (λ _,
  thenA (lift (require_NotNil (list_response vars))) (λ _,
  lift (require_NotEmpty (default [] (list_response vars))))).

Definition AccessAsUserTest (testUsername : string) (ticks : nat) : AccessTest unit :=
  thenA (lift (addTestClusterUserCanViewEverythingRoleBinding testUsername)) (λ _,
  thenA (Eventually ticks (mkListResult None None)) (λ vars,
  requireNamespaces vars)).

Definition AccessAsGroupTest (testGroup : string) (ticks : nat) : AccessTest unit :=
  thenA (lift (addTestClusterGroupCanViewEverythingRoleBinding testGroup)) (λ _,
  thenA (Eventually ticks (mkListResult None None)) (λ vars,
  requireNamespaces vars)).

End AccessTests.

(** *** [writeStringToTempFile] and [runKubectlGetNamespaces] *)

(** The operating system as these helpers use it, over a state [F]:
    [ioutil.TempFile] in the default directory, the three file operations,
    and [exec.Command(name, args...).CombinedOutput()]. *)
Class OS (F : Type) : Type := {
  TempFile : F → string → result string * F;
  WriteString : F → string → string → option error * F;
  Close : F → string → option error * F;
  Remove : F → string → option error * F;
  CombinedOutput : F → string → list string → (string * option error) * F
}.

Inductive OSCall : Type :=
| CalledTempFile (pattern : string)
| CalledWriteString (file content : string)
| CalledClose (file : string)
| CalledRemove (file : string)
| CalledCommand (name : string) (args : list string).

Inductive FileCleanup : Type :=
| RemoveFile (file : string).

(** [*testing.T] together with the machine the test runs on. *)
Record FT (F : Type) : Type := mkFT {
  machine : F;
  os_calls : list OSCall;
  file_cleanups : list FileCleanup;
  file_failed : bool
}.
Arguments mkFT {F}.
Arguments machine {F}.
Arguments os_calls {F}.
Arguments file_cleanups {F}.
Arguments file_failed {F}.

Section Files.
Context {F : Type} `{OS F}.

Definition FileTest (A : Type) : Type := FT F → option A * FT F.

Definition thenF {A B} (m : FileTest A) (f : A → FileTest B) : FileTest B :=
  λ t, match m t with
       | (Some a, t') => f a t'
       | (None, t') => (None, t')
       end.

Definition file_require_NoError (err : option error) : FileTest unit :=
  λ t, match err with
       | None => (Some tt, t)
       | Some _ => (None, mkFT (machine t) (os_calls t) (file_cleanups t) true)
       end.

Definition os_TempFile (pattern : string) : FileTest (result string) :=
  λ t, let '(r, m) := TempFile (machine t) pattern in
       (Some r, mkFT m (os_calls t ++ [CalledTempFile pattern])
                  (file_cleanups t) (file_failed t)).

Definition os_WriteString (file content : string) : FileTest (option error) :=
  λ t, let '(e, m) := WriteString (machine t) file content in
       (Some e, mkFT m (os_calls t ++ [CalledWriteString file content])
                  (file_cleanups t) (file_failed t)).

Definition os_Close (file : string) : FileTest (option error) :=
  λ t, let '(e, m) := Close (machine t) file in
       (Some e, mkFT m (os_calls t ++ [CalledClose file])
                  (file_cleanups t) (file_failed t)).

Definition os_Remove (file : string) : FileTest (option error) :=
  λ t, let '(e, m) := Remove (machine t) file in
       (Some e, mkFT m (os_calls t ++ [CalledRemove file])
                  (file_cleanups t) (file_failed t)).

Definition os_CombinedOutput (name : string) (args : list string)
  : FileTest (string * option error) :=
  λ t, let '(r, m) := CombinedOutput (machine t) name args in
       (Some r, mkFT m (os_calls t ++ [CalledCommand name args])
                  (file_cleanups t) (file_failed t)).

Definition file_Cleanup (f : FileCleanup) : FileTest unit :=
  λ t, (Some tt, mkFT (machine t) (os_calls t) (file_cleanups t ++ [f]) (file_failed t)).

Definition writeStringToTempFile (filename kubeConfigYAML : string) : FileTest string :=
  thenF (os_TempFile filename) (λ r,
  match r with
  | Err e => thenF (file_require_NoError (Some e)) (λ _, λ t, (None, t))
  | Ok f =>
      thenF (file_require_NoError None) (λ _,
      thenF (file_Cleanup (RemoveFile f)) (λ _,
      thenF (os_WriteString f kubeConfigYAML) (λ err,
      thenF (file_require_NoError err) (λ _,
      thenF (os_Close f) (λ err,
      thenF (file_require_NoError err) (λ _,
      λ t, (Some f, t)))))))
  end).

(** The closure [deferMe] registered by [writeStringToTempFile]. *)
Definition run_file_cleanup (c : FileCleanup) : FileTest unit :=
  match c with
  | RemoveFile f => thenF (os_Remove f) (λ err, file_require_NoError err)
  end.

Definition runKubectlGetNamespaces (kubeConfigYAML : string)
  : FileTest (string * option error) :=
  thenF (writeStringToTempFile "pinniped-generated-kubeconfig-*" kubeConfigYAML) (λ f,
  os_CombinedOutput "kubectl" ["get"; "namespace"; "--kubeconfig"; f]).

End Files.

End library.

(** ** Vocabulary of the statements about [runServer] *)

(** The three objects [runServer] allocates, in order: the authenticator
    cache, the serving-certificate provider, the signing-key provider. *)
Definition allocations (h : Heap) : loc * loc * loc * Heap :=
  let '(c, h1) := authncache.New h in
  let '(s, h2) := dynamiccert.New h1 in
  let '(k, h3) := dynamiccert.New h2 in
  (c, s, k, h3).

Definition impersonationTTL : Z := Duration_mul 24 Hour.

(** [startup_fails E a h prefix e]: some start-up step of [runServer], run by
    [a] in environment [E] on heap [h], fails with [e] after all earlier
    steps succeeded; [prefix] is the message that step's failure is wrapped
    with. *)
Inductive startup_fails (E : Env) (a : App) (h : Heap) : string → error → Prop :=
| fails_load_config e :
    concierge_FromPath E (configPath a) = Err e →
    startup_fails E a h "could not load config" e
| fails_pod_metadata cfg e :
    concierge_FromPath E (configPath a) = Ok cfg →
    downward_Load E (downwardAPIPath a) = Err e →
    startup_fails E a h "could not read pod metadata" e
| fails_prepare_controllers cfg pod c s k h' e :
    concierge_FromPath E (configPath a) = Ok cfg →
    downward_Load E (downwardAPIPath a) = Ok pod →
    allocations h = (c, s, k, h') →
    controllermanager_PrepareControllers E (controllersConfig cfg pod c s k) = Err e →
    startup_fails E a h "could not prepare controllers" e
| fails_api_config cfg pod c s k h' start e :
    concierge_FromPath E (configPath a) = Ok cfg →
    downward_Load E (downwardAPIPath a) = Ok pod →
    allocations h = (c, s, k, h') →
    controllermanager_PrepareControllers E (controllersConfig cfg pod c s k) = Ok start →
    getAggregatedAPIServerConfig E s c (dynamiccertauthority_New k) start
      (cfg_APIGroupSuffix cfg) = Err e →
    startup_fails E a h "could not configure aggregated API server" e
| fails_api_server cfg pod c s k h' start apicfg e :
    concierge_FromPath E (configPath a) = Ok cfg →
    downward_Load E (downwardAPIPath a) = Ok pod →
    allocations h = (c, s, k, h') →
    controllermanager_PrepareControllers E (controllersConfig cfg pod c s k) = Ok start →
    getAggregatedAPIServerConfig E s c (dynamiccertauthority_New k) start
      (cfg_APIGroupSuffix cfg) = Ok apicfg →
    apiserver_New E apicfg = Err e →
    startup_fails E a h "could not create aggregated API server" e
| fails_impersonation_ca cfg pod c s k h' start apicfg srv e :
    concierge_FromPath E (configPath a) = Ok cfg →
    downward_Load E (downwardAPIPath a) = Ok pod →
    allocations h = (c, s, k, h') →
    controllermanager_PrepareControllers E (controllersConfig cfg pod c s k) = Ok start →
    getAggregatedAPIServerConfig E s c (dynamiccertauthority_New k) start
      (cfg_APIGroupSuffix cfg) = Ok apicfg →
    apiserver_New E apicfg = Ok srv →
    certauthority_New E (mkName "test CA") impersonationTTL = Err e →
    startup_fails E a h "could not create impersonation CA" e
| fails_impersonation_cert cfg pod c s k h' start apicfg srv ca e :
    concierge_FromPath E (configPath a) = Ok cfg →
    downward_Load E (downwardAPIPath a) = Ok pod →
    allocations h = (c, s, k, h') →
    controllermanager_PrepareControllers E (controllersConfig cfg pod c s k) = Ok start →
    getAggregatedAPIServerConfig E s c (dynamiccertauthority_New k) start
      (cfg_APIGroupSuffix cfg) = Ok apicfg →
    apiserver_New E apicfg = Ok srv →
    certauthority_New E (mkName "test CA") impersonationTTL = Ok ca →
    certauthority_Issue E ca (mkName "") ["impersonation-proxy"] [] impersonationTTL
      = Err e →
    startup_fails E a h "could not create impersonation cert" e
| fails_impersonation_proxy cfg pod c s k h' start apicfg srv ca cert e :
    concierge_FromPath E (configPath a) = Ok cfg →
    downward_Load E (downwardAPIPath a) = Ok pod →
    allocations h = (c, s, k, h') →
    controllermanager_PrepareControllers E (controllersConfig cfg pod c s k) = Ok start →
    getAggregatedAPIServerConfig E s c (dynamiccertauthority_New k) start
      (cfg_APIGroupSuffix cfg) = Ok apicfg →
    apiserver_New E apicfg = Ok srv →
    certauthority_New E (mkName "test CA") impersonationTTL = Ok ca →
    certauthority_Issue E ca (mkName "") ["impersonation-proxy"] [] impersonationTTL
      = Ok cert →
    impersonator_New E c "impersonation-proxy" = Err e →
    startup_fails E a h "could not create impersonation proxy" e.

(** [startup E a h c s k h' start srv cert proxy]: every start-up step
    succeeds; [c], [s], [k] are the cache and the two providers, [h'] the
    heap that holds them, and the remaining indices the values made on the way. *)
Inductive startup (E : Env) (a : App) (h : Heap)
  : loc → loc → loc → Heap → StartControllersFunc →
    AggregatedServer → tls_Certificate → Proxy → Prop :=
| startup_done cfg pod c s k h' start apicfg srv ca cert proxy :
    concierge_FromPath E (configPath a) = Ok cfg →
    downward_Load E (downwardAPIPath a) = Ok pod →
    allocations h = (c, s, k, h') →
    controllermanager_PrepareControllers E (controllersConfig cfg pod c s k) = Ok start →
    getAggregatedAPIServerConfig E s c (dynamiccertauthority_New k) start
      (cfg_APIGroupSuffix cfg) = Ok apicfg →
    apiserver_New E apicfg = Ok srv →
    certauthority_New E (mkName "test CA") impersonationTTL = Ok ca →
    certauthority_Issue E ca (mkName "") ["impersonation-proxy"] [] impersonationTTL
      = Ok cert →
    impersonator_New E c "impersonation-proxy" = Ok proxy →
    startup E a h c s k h' start srv cert proxy.

(** [runServer] got as far as starting its servers: the proxy goroutine was
    spawned for [psrv] and the aggregated server [srv] was run, leaving heap [h']. *)
Definition starts (E : Env) (a : App) (w : World)
    (h' : Heap) (srv : AggregatedServer) (psrv : http_Server) : Prop :=
  (runServer E a w).2 =
    mkWorld h' (goroutines w ++ [GoServeImpersonationProxy psrv])
               (events w ++ [EvRun srv]).

(** The same environment with another outcome of [ListenAndServeTLS]. *)
Definition with_listen (f : http_Server → option error) (E : Env) : Env :=
  {| concierge_FromPath := concierge_FromPath E;
     downward_Load := downward_Load E;
     controllermanager_PrepareControllers := controllermanager_PrepareControllers E;
     loginv1alpha1_GroupName := loginv1alpha1_GroupName E;
     apigroup_Make := apigroup_Make E;
     options_ApplyTo_err := options_ApplyTo_err E;
     apiserver_New_err := apiserver_New_err E;
     certauthority_New := certauthority_New E;
     certauthority_Issue := certauthority_Issue E;
     impersonator_New_upstream := impersonator_New_upstream E;
     http_ListenAndServeTLS := f;
     genericapiserver_Run := genericapiserver_Run E |}.

(** A server reads its certificate from provider [p] at handshake time:
    whatever pair [p] currently holds is the one presented. *)
Definition serves_from_provider (c : tls_Config) (p : loc) : Prop :=
  ∀ (h : Heap) (serverName : string) (current : tls_Certificate),
    dynamiccert.CurrentCert h p = Some current →
    presented_certificate c h serverName = Ok current.

(** ** Concrete inputs *)

Definition demoConfig : concierge_Config :=
  mkConfig "pinniped.dev" "names" ∅ "agent" None 3600 600.

Definition demoLeaf : tls_Certificate := mkCert ["leaf"; "impersonation-proxy"] "leafkey".
Definition rotatedPair : tls_Certificate := mkCert ["rotated"] "rotatedkey".

Definition demoEnv : Env :=
  {| concierge_FromPath := λ _, Ok demoConfig;
     downward_Load := λ _, Ok (mkPodInfo "concierge");
     controllermanager_PrepareControllers := λ c, Ok (mkStartControllers c);
     loginv1alpha1_GroupName := "login.concierge.pinniped.dev";
     apigroup_Make := λ g _, Some g;
     options_ApplyTo_err := λ _, None;
     apiserver_New_err := λ _, None;
     certauthority_New := λ n ttl, Ok (mkCA n ttl (mkCert ["ca"] "cakey"));
     certauthority_Issue := λ _ _ sans _ _, Ok (mkCert ("leaf" :: sans) "leafkey");
     impersonator_New_upstream := Ok "https://kubernetes.default.svc";
     http_ListenAndServeTLS := λ _, Some (ErrNew "listen tcp 0.0.0.0:8444: bind: address already in use");
     genericapiserver_Run := λ _, None |}.

(** [demoEnv], except that the impersonation proxy cannot be constructed. *)
Definition noProxyEnv : Env :=
  {| concierge_FromPath := concierge_FromPath demoEnv;
     downward_Load := downward_Load demoEnv;
     controllermanager_PrepareControllers := controllermanager_PrepareControllers demoEnv;
     loginv1alpha1_GroupName := loginv1alpha1_GroupName demoEnv;
     apigroup_Make := apigroup_Make demoEnv;
     options_ApplyTo_err := options_ApplyTo_err demoEnv;
     apiserver_New_err := apiserver_New_err demoEnv;
     certauthority_New := certauthority_New demoEnv;
     certauthority_Issue := certauthority_Issue demoEnv;
     impersonator_New_upstream := Err (ErrNew "could not get in-cluster config");
     http_ListenAndServeTLS := http_ListenAndServeTLS demoEnv;
     genericapiserver_Run := genericapiserver_Run demoEnv |}.

Definition demoApp : App := mkApp "pinniped.yaml" "/etc/podinfo".
Definition emptyWorld : World := mkWorld ∅ [] [].

Definition demoAPIConfig : apiserver_Config :=
  {| GenericConfig := mkRecommendedConfig (Some 2%positive) 8443;
     Extra := {| extra_Authenticator := 1%positive;
                 extra_Issuer := dynamiccertauthority_New 3%positive;
                 extra_StartControllersPostStartHook :=
                   mkStartControllers
                     (controllersConfig demoConfig (mkPodInfo "concierge")
                        1%positive 2%positive 3%positive) |} |}.

Definition demoServer : AggregatedServer := mkAggregatedServer demoAPIConfig.

Definition demoProxy : Proxy :=
  mkProxy 1%positive "impersonation-proxy" "https://kubernetes.default.svc".

Definition demoProxyServer : http_Server := impersonationServer demoProxy demoLeaf.

Definition demoHeap : Heap :=
  (runServer demoEnv demoApp emptyWorld).2.(heap).

(** Scenario A of the specification: one webhook authenticator that accepts
    a single token as alice, a member of admins. *)
Definition webhookID : AuthenticatorID :=
  mkAuthenticatorID "webhook" "group.example.com" "primary".

Definition aliceAuthenticator : Authenticator :=
  λ token, if decide (token = "good-token")
           then Some (mkIdentity "alice" ["admins"]) else None.

Definition scenarioHeap : Heap :=
  authncache.Store 1%positive webhookID aliceAuthenticator demoHeap.

Definition okTransport : impersonator.Request → result impersonator.Response :=
  λ _, Ok (impersonator.mkResponse 200 ∅ "ok").

(** Scenario D: a good token together with forged impersonation headers. *)
Definition forgedRequest : impersonator.Request :=
  impersonator.mkRequest "GET" "/api/v1/namespaces" "limit=10"
    (<["Authorization" := ["Bearer good-token"]]>
       (<["Impersonate-User" := ["root"]]>
          (<["Impersonate-Group" := ["system:masters"]]> ∅)))
    "".

(** Scenario B: a token the authenticator rejects. *)
Definition badTokenRequest : impersonator.Request :=
  impersonator.mkRequest "GET" "/api/v1/namespaces" ""
    (<["Authorization" := ["Bearer bad-token"]]> ∅) "".

(** A cluster that holds the bindings named in a set. *)
Definition fakeCluster : library.ClusterRoleBindings (gset string) :=
  {| library.Get := λ s name,
       if decide (name ∈ s) then None
       else Some (library.StatusError 404 "not found");
     library.Create := λ s b,
       if decide (library.Name b ∈ s)
       then (Some (library.StatusError 409 "already exists"), s)
       else (None, {[library.Name b]} ∪ s);
     library.Delete := λ s name,
       if decide (name ∈ s) then (None, s ∖ {[name]})
       else (Some (library.StatusError 404 "not found"), s) |}.

Definition viewBinding : library.ClusterRoleBinding :=
  library.mkBinding "integration-test-user-readonly-role-binding"
    [("User", "rbac.authorization.k8s.io", "alice")]
    ("ClusterRole", "rbac.authorization.k8s.io", "view").

Definition freshTest : library.T (gset string) := library.mkT ∅ [] [] false.

Definition bindingName : string := "integration-test-user-readonly-role-binding".

(** A test that starts on a cluster which already holds the binding. *)
Definition rerunTest : library.T (gset string) :=
  library.mkT {[bindingName]} [] [] false.

(** A cluster whose API refuses the administrator's [Get]. *)
Definition forbiddenCluster : library.ClusterRoleBindings (gset string) :=
  {| library.Get := λ _ _, Some (library.StatusError 403 "forbidden");
     library.Create := λ s b, (None, {[library.Name b]} ∪ s);
     library.Delete := λ s name, (None, s ∖ {[name]}) |}.

(** A cluster that cannot be reached at all. *)
Definition unreachableCluster : library.ClusterRoleBindings (gset string) :=
  {| library.Get := λ _ _, Some (library.OtherError "connection refused");
     library.Create := λ s b, (None, {[library.Name b]} ∪ s);
     library.Delete := λ s name, (None, s ∖ {[name]}) |}.

(** [demoEnv], except that the aggregated server stops with an error. *)
Definition runFailsEnv : Env :=
  {| concierge_FromPath := concierge_FromPath demoEnv;
     downward_Load := downward_Load demoEnv;
     controllermanager_PrepareControllers := controllermanager_PrepareControllers demoEnv;
     loginv1alpha1_GroupName := loginv1alpha1_GroupName demoEnv;
     apigroup_Make := apigroup_Make demoEnv;
     options_ApplyTo_err := options_ApplyTo_err demoEnv;
     apiserver_New_err := apiserver_New_err demoEnv;
     certauthority_New := certauthority_New demoEnv;
     certauthority_Issue := certauthority_Issue demoEnv;
     impersonator_New_upstream := impersonator_New_upstream demoEnv;
     http_ListenAndServeTLS := http_ListenAndServeTLS demoEnv;
     genericapiserver_Run := λ _, Some (ErrNew "listen tcp :8443: bind: permission denied") |}.

(** [demoEnv], except that no API group can be made from the suffix. *)
Definition badSuffixEnv : Env :=
  {| concierge_FromPath := concierge_FromPath demoEnv;
     downward_Load := downward_Load demoEnv;
     controllermanager_PrepareControllers := controllermanager_PrepareControllers demoEnv;
     loginv1alpha1_GroupName := loginv1alpha1_GroupName demoEnv;
     apigroup_Make := λ _ _, None;
     options_ApplyTo_err := λ _, Some (ErrNew "never consulted");
     apiserver_New_err := apiserver_New_err demoEnv;
     certauthority_New := certauthority_New demoEnv;
     certauthority_Issue := certauthority_Issue demoEnv;
     impersonator_New_upstream := impersonator_New_upstream demoEnv;
     http_ListenAndServeTLS := http_ListenAndServeTLS demoEnv;
     genericapiserver_Run := genericapiserver_Run demoEnv |}.

(** A configuration whose certificate lifetime does not fit a [time.Duration]. *)
Definition hugeDurationConfig : concierge_Config :=
  mkConfig "pinniped.dev" "names" ∅ "agent" None 9223372037 600.

(** Whether [fakeCluster] holds a binding of that name. *)
Definition present_in (s : gset string) (n : string) : bool := bool_decide (n ∈ s).

Definition otherBindingName : string := "cluster-admin-binding".

(** A test that starts on a cluster holding an unrelated binding. *)
Definition sharedClusterTest : library.T (gset string) :=
  library.mkT {[otherBindingName]} [] [] false.

(** A client under test that can list two namespaces. *)
Definition healthyNamespaces : library.Namespaces (gset string) :=
  {| library.ListNamespaces := λ s,
       (library.mkListResult (Some ["default"; "kube-system"]) None, s) |}.

Definition startAccess : library.AT (gset string) := library.mkAT freshTest [].

(** A client under test whose credential the cluster does not accept. *)
Definition unauthorizedNamespaces : library.Namespaces (gset string) :=
  {| library.ListNamespaces := λ s,
       (library.mkListResult (Some [])
          (Some (library.StatusError 401 "Unauthorized")), s) |}.

(** A machine whose files are a map from name to content; the temporary
    file for a pattern is named after the pattern, and [kubectl] prints the
    namespaces it finds. *)
Definition fakeOS : library.OS (gmap string string) :=
  {| library.TempFile := λ m pattern,
       (Ok ("/tmp/" +:+ pattern), <["/tmp/" +:+ pattern := ""]> m);
     library.WriteString := λ m file content,
       match m !! file with
       | Some old => (None, <[file := old +:+ content]> m)
       | None => (Some (ErrNew "file already closed"), m)
       end;
     library.Close := λ m file, (None, m);
     library.Remove := λ m file,
       match m !! file with
       | Some _ => (None, delete file m)
       | None => (Some (ErrNew "no such file or directory"), m)
       end;
     library.CombinedOutput := λ m name args,
       (("error: You must be logged in to the server (Unauthorized)",
         Some (ErrNew "exit status 1")), m) |}.

(** A machine without room for temporary files. *)
Definition fullDiskOS : library.OS (gmap string string) :=
  {| library.TempFile := λ m pattern, (Err (ErrNew "no space left on device"), m);
     library.WriteString := λ m file content, (None, m);
     library.Close := λ m file, (None, m);
     library.Remove := λ m file, (None, m);
     library.CombinedOutput := λ m name args, (("", None), m) |}.

(** A machine on which temporary files can be created but not written. *)
Definition readOnlyOS : library.OS (gmap string string) :=
  {| library.TempFile := λ m pattern,
       (Ok ("/tmp/" +:+ pattern), <["/tmp/" +:+ pattern := ""]> m);
     library.WriteString := λ m file content, (Some (ErrNew "read-only file system"), m);
     library.Close := λ m file, (None, m);
     library.Remove := λ m file, (None, delete file m);
     library.CombinedOutput := λ m name args, (("", None), m) |}.

Definition freshMachine : library.FT (gmap string string) := library.mkFT ∅ [] [] false.

(** ** Lemmas about the heap and the monad *)

Lemma alloc_fresh (o : object) (h : Heap) : h !! (alloc o h).1 = None.
Proof.
  unfold alloc; simpl. apply not_elem_of_dom, is_fresh.
Qed.

Lemma alloc_lookup (o : object) (h : Heap) : (alloc o h).2 !! (alloc o h).1 = Some o.
Proof. unfold alloc; simpl. apply lookup_insert_eq. Qed.

Lemma alloc_preserves (o o' : object) (h : Heap) (l : loc) :
  h !! l = Some o' → (alloc o h).2 !! l = Some o' ∧ l ≠ (alloc o h).1.
Proof.
  intros Hl. assert (l ≠ (alloc o h).1) as Hne.
  { intros ->. rewrite alloc_fresh in Hl. discriminate. }
  split; [|done]. unfold alloc in *; simpl in *. by rewrite lookup_insert_ne.
Qed.

(** The three allocations are pairwise distinct and hold what was put there. *)
Lemma allocations_spec (h : Heap) c s k h' :
  allocations h = (c, s, k, h') →
  c ≠ s ∧ c ≠ k ∧ s ≠ k ∧
  h' !! c = Some (ObjCache ∅) ∧
  h' !! s = Some (ObjProvider None) ∧
  h' !! k = Some (ObjProvider None).
Proof.
  unfold allocations, authncache.New, dynamiccert.New.
  set (o1 := ObjCache ∅). set (o2 := ObjProvider None).
  destruct (alloc o1 h) as [c0 h1] eqn:E1.
  destruct (alloc o2 h1) as [s0 h2] eqn:E2.
  destruct (alloc o2 h2) as [k0 h3] eqn:E3.
  intros [= <- <- <- <-].
  pose proof (alloc_lookup o1 h) as L1. rewrite E1 in L1; simpl in L1.
  pose proof (alloc_lookup o2 h1) as L2. rewrite E2 in L2; simpl in L2.
  pose proof (alloc_lookup o2 h2) as L3. rewrite E3 in L3; simpl in L3.
  pose proof (alloc_preserves o2 o1 h1 c0 L1) as [L1' N12]. rewrite E2 in L1', N12; simpl in *.
  pose proof (alloc_preserves o2 o1 h2 c0 L1') as [L1'' N13]. rewrite E3 in L1'', N13; simpl in *.
  pose proof (alloc_preserves o2 o2 h2 s0 L2) as [L2' N23]. rewrite E3 in L2', N23; simpl in *.
  done.
Qed.

Lemma try_wrap_ok {A} (prefix : string) (r : result A) (a : A) (w : World) :
  r = Ok a → try_wrap prefix r w = (Ok a, w).
Proof. by intros ->. Qed.

Lemma try_wrap_err {A} (prefix : string) (r : result A) (e : error) (w : World) :
  r = Err e → try_wrap prefix r w = (Err (Errorf prefix e), w).
Proof. by intros ->. Qed.

(** [runServer] either stops at a failing start-up step, returning that
    step's wrapped error without having started anything, or completes
    start-up, spawns the proxy goroutine, runs the aggregated server and
    returns what that run returns. *)
Lemma runServer_cases (E : Env) (a : App) (w : World) :
  (∃ prefix e h',
      startup_fails E a (heap w) prefix e ∧
      runServer E a w = (Some (Errorf prefix e), mkWorld h' (goroutines w) (events w)))
  ∨
  (∃ c s k h' start srv cert proxy,
      startup E a (heap w) c s k h' start srv cert proxy ∧
      runServer E a w =
        (genericapiserver_Run E srv,
         mkWorld h' (goroutines w ++ [GoServeImpersonationProxy (impersonationServer proxy cert)])
                    (events w ++ [EvRun srv]))).
Proof.
  enough (∀ r, runServer E a w = r →
    (∃ prefix e h',
        startup_fails E a (heap w) prefix e ∧
        r = (Some (Errorf prefix e), mkWorld h' (goroutines w) (events w)))
    ∨
    (∃ c s k h' start srv cert proxy,
        startup E a (heap w) c s k h' start srv cert proxy ∧
        r = (genericapiserver_Run E srv,
             mkWorld h' (goroutines w ++ [GoServeImpersonationProxy (impersonationServer proxy cert)])
                        (events w ++ [EvRun srv])))) as Hr by eauto.
  intros r. unfold runServer, runServer_body, bind.
  destruct (concierge_FromPath E (configPath a)) as [cfg|e] eqn:H1.
  2:{ intros <-. left. exists "could not load config", e, (heap w). split.
      - by constructor.
      - simpl. by destruct w. }
  destruct (downward_Load E (downwardAPIPath a)) as [pod|e] eqn:H2.
  2:{ intros <-. left. exists "could not read pod metadata", e, (heap w). split.
      - by econstructor.
      - simpl. by destruct w. }
  unfold try_wrap at 1 2, new_cache, new_provider.
  destruct (authncache.New (heap w)) as [c h1] eqn:A1; cbn [heap goroutines events].
  destruct (dynamiccert.New h1) as [s h2] eqn:A2; cbn [heap goroutines events].
  destruct (dynamiccert.New h2) as [k h'] eqn:A3; cbn [heap goroutines events].
  assert (allocations (heap w) = (c, s, k, h')) as HA.
  { unfold allocations. rewrite A1; cbv beta iota. rewrite A2; cbv beta iota.
    by rewrite A3. }
  clear A1 A2 A3 h1 h2.
  destruct (controllermanager_PrepareControllers E _) as [start|e] eqn:H3;
    cbn [try_wrap returned].
  2:{ intros <-. left. exists "could not prepare controllers", e, h'. split; [|done].
      by econstructor. }
  destruct (getAggregatedAPIServerConfig E s c _ start _) as [apicfg|e] eqn:H4;
    cbn [try_wrap returned].
  2:{ intros <-. left. exists "could not configure aggregated API server", e, h'.
      split; [|done]. by econstructor. }
  destruct (apiserver_New E apicfg) as [srv|e] eqn:H5; cbn [try_wrap returned].
  2:{ intros <-. left. exists "could not create aggregated API server", e, h'.
      split; [|done]. by econstructor. }
  destruct (certauthority_New E _ _) as [ca|e] eqn:H6; cbn [try_wrap returned].
  2:{ intros <-. left. exists "could not create impersonation CA", e, h'.
      split; [|done]. by econstructor. }
  destruct (certauthority_Issue E ca _ _ _ _) as [cert|e] eqn:H7; cbn [try_wrap returned].
  2:{ intros <-. left. exists "could not create impersonation cert", e, h'.
      split; [|done]. by econstructor. }
  destruct (impersonator_New E c _) as [proxy|e] eqn:H8; cbn [try_wrap returned].
  2:{ intros <-. left. exists "could not create impersonation proxy", e, h'.
      split; [|done]. by econstructor. }
  unfold go, emit; cbn [heap goroutines events].
  intros <-. right. exists c, s, k, h', start, srv, cert, proxy. split.
  - by econstructor.
  - by destruct (genericapiserver_Run E srv).
Qed.

Lemma getAggregatedAPIServerConfig_ok (E : Env) p c issuer hook suffix apicfg :
  getAggregatedAPIServerConfig E p c issuer hook suffix = Ok apicfg →
  SecureServing_Cert (GenericConfig apicfg) = Some p ∧
  SecureServing_Port (GenericConfig apicfg) = 8443 ∧
  Extra apicfg = mkExtraConfig c issuer hook.
Proof.
  unfold getAggregatedAPIServerConfig, ApplyTo.
  destruct (apigroup_Make E _ _); [|discriminate].
  destruct (options_ApplyTo_err E _); [discriminate|].
  by intros [= <-].
Qed.

Lemma apiserver_New_ok (E : Env) apicfg srv :
  apiserver_New E apicfg = Ok srv → server_config srv = apicfg.
Proof.
  unfold apiserver_New. destruct (apiserver_New_err E apicfg); [discriminate|].
  by intros [= <-].
Qed.

Lemma impersonator_New_ok (E : Env) c log proxy :
  impersonator_New E c log = Ok proxy → proxy_cache proxy = c.
Proof.
  unfold impersonator_New. destruct (impersonator_New_upstream E); [|discriminate].
  by intros [= <-].
Qed.

(** A run that started its servers went through every start-up step. *)
Lemma starts_inv (E : Env) (a : App) (w : World) h' srv psrv :
  starts E a w h' srv psrv →
  ∃ c s k start cert proxy,
    startup E a (heap w) c s k h' start srv cert proxy ∧
    psrv = impersonationServer proxy cert ∧
    (runServer E a w).1 = genericapiserver_Run E srv.
Proof.
  unfold starts. intros Hs.
  destruct (runServer_cases E a w)
    as [(prefix & e & h1 & _ & Hr)|(c & s & k & h1 & start & srv1 & cert & proxy & Hst & Hr)];
    rewrite Hr in Hs |- *; simpl in Hs.
  - injection Hs as _ _ Hev. apply (f_equal length) in Hev.
    rewrite length_app in Hev. simpl in Hev. lia.
  - injection Hs as -> Hg Hev.
    apply app_inv_head in Hg. apply app_inv_head in Hev.
    injection Hg as <-. injection Hev as <-.
    by exists c, s, k, start, cert, proxy.
Qed.

(** Two outcomes of the same call are the same outcome. *)
Ltac same_call :=
  repeat match goal with
         | H1 : ?call = _, H2 : ?call = _ |- _ =>
             rewrite H1 in H2; first [discriminate H2 | injection H2 as ?; subst]
         end.

(** The outcome of start-up is determined by the environment and the heap. *)
Lemma startup_fails_functional (E : Env) (a : App) (h : Heap) p1 e1 p2 e2 :
  startup_fails E a h p1 e1 → startup_fails E a h p2 e2 → p1 = p2 ∧ e1 = e2.
Proof. inversion 1; inversion 1; subst; same_call; done. Qed.

Lemma startup_fails_excludes_startup (E : Env) (a : App) (h : Heap)
    p e c s k h' start srv cert proxy :
  startup_fails E a h p e → startup E a h c s k h' start srv cert proxy → False.
Proof. inversion 1; inversion 1; subst; same_call. Qed.

Lemma runServer_ignores_listen (E : Env) (a : App) (w : World) f :
  runServer (with_listen f E) a w = runServer E a w.
Proof. reflexivity. Qed.

Lemma provider_Set_current (p : loc) (pair : tls_Certificate) (h : Heap) cell :
  h !! p = Some (ObjProvider cell) →
  dynamiccert.CurrentCert (dynamiccert.Set_ p pair h) p = Some pair.
Proof.
  intros Hp. unfold dynamiccert.CurrentCert, dynamiccert.Set_.
  rewrite Hp. by rewrite lookup_insert_eq.
Qed.

Lemma provider_Unset_current (p : loc) (h : Heap) :
  dynamiccert.CurrentCert (dynamiccert.UnsetCert p h) p = None.
Proof.
  unfold dynamiccert.CurrentCert, dynamiccert.UnsetCert.
  destruct (h !! p) as [[m|cell]|] eqn:Hp; rewrite ?lookup_insert_eq, ?Hp; done.
Qed.

Lemma provider_Set_other (p q : loc) (pair : tls_Certificate) (h : Heap) :
  p ≠ q →
  dynamiccert.CurrentCert (dynamiccert.Set_ p pair h) q = dynamiccert.CurrentCert h q.
Proof.
  intros Hne. unfold dynamiccert.CurrentCert, dynamiccert.Set_.
  destruct (h !! p) as [[m|cell]|]; rewrite ?lookup_insert_ne; done.
Qed.

Lemma cache_Store_Get (c : loc) (id : AuthenticatorID) (au : Authenticator) (h : Heap) m :
  h !! c = Some (ObjCache m) →
  authncache.Get (authncache.Store c id au h) c id = Some au.
Proof.
  intros Hc. unfold authncache.Get, authncache.Store.
  rewrite Hc, lookup_insert_eq. apply lookup_insert_eq.
Qed.

(** ** The impersonation proxy's serving certificate *)

(** C1, as stated, fails: the proxy server that [runServer] spawns does not
    read any dynamic certificate provider at handshake time.  In the
    demonstration run no provider [p] exists whose current pair is what the
    proxy presents: after either provider of that run is set to a rotated
    pair, the proxy still presents the certificate issued at start-up. *)
Lemma proxy_certificate_ignores_providers :
  starts demoEnv demoApp emptyWorld demoHeap demoServer demoProxyServer ∧
  dynamiccert.CurrentCert (dynamiccert.Set_ 2%positive rotatedPair demoHeap) 2%positive
    = Some rotatedPair ∧
  presented_certificate (TLSConfig demoProxyServer)
    (dynamiccert.Set_ 2%positive rotatedPair demoHeap) "" = Ok demoLeaf ∧
  presented_certificate (TLSConfig demoProxyServer)
    (dynamiccert.Set_ 3%positive rotatedPair demoHeap) "" = Ok demoLeaf ∧
  ¬ ∃ p : loc, serves_from_provider (TLSConfig demoProxyServer) p.
Proof.
  split_and!; [reflexivity..|].
  intros [p Hp].
  specialize (Hp {[p := ObjProvider (Some rotatedPair)]} "" rotatedPair).
  unfold dynamiccert.CurrentCert in Hp. rewrite lookup_singleton_eq in Hp.
  specialize (Hp eq_refl). discriminate Hp.
Qed.

(** C1, amended: the serving certificate of the impersonation proxy is the
    one certificate issued at start-up by the in-process "test CA" for 24
    hours; it is placed in the static certificate list of the proxy's TLS
    configuration, no handshake-time hook is installed, and therefore every
    handshake, whatever the heap (and so whatever any provider holds) and
    whatever server name is asked for, presents that same certificate. *)
Theorem proxy_certificate_fixed_at_startup (E : Env) (a : App) (w : World)
    (h' : Heap) (srv : AggregatedServer) (psrv : http_Server) :
  starts E a w h' srv psrv →
  ∃ ca cert,
    certauthority_New E (mkName "test CA") (Duration_mul 24 Hour) = Ok ca ∧
    certauthority_Issue E ca (mkName "") ["impersonation-proxy"] []
      (Duration_mul 24 Hour) = Ok cert ∧
    Duration_mul 24 Hour = 86400 * Second ∧
    TLSConfig psrv = mkTLSConfig VersionTLS12 [cert] None ∧
    ∀ (h : Heap) (serverName : string),
      presented_certificate (TLSConfig psrv) h serverName = Ok cert.
Proof.
  intros (c & s & k & start & cert & proxy & Hst & -> & _)%starts_inv.
  inversion Hst; subst. exists ca, cert. done.
Qed.

Lemma proxy_certificate_fixed_at_startup_witness :
  ∃ ca cert,
    certauthority_New demoEnv (mkName "test CA") (Duration_mul 24 Hour) = Ok ca ∧
    certauthority_Issue demoEnv ca (mkName "") ["impersonation-proxy"] []
      (Duration_mul 24 Hour) = Ok cert ∧
    Duration_mul 24 Hour = 86400 * Second ∧
    TLSConfig demoProxyServer = mkTLSConfig VersionTLS12 [cert] None ∧
    ∀ (h : Heap) (serverName : string),
      presented_certificate (TLSConfig demoProxyServer) h serverName = Ok cert.
Proof.
  apply (proxy_certificate_fixed_at_startup demoEnv demoApp emptyWorld
           demoHeap demoServer demoProxyServer).
  reflexivity.
Defined.

(** ** Fail-closed serving of the aggregated API server *)

(** C4: the provider installed as the aggregated server's certificate source
    is created unset; whenever it is unset the server answers "unavailable"
    instead of serving; and once a mutator sets it, the same server value,
    not restarted, serves the next request with exactly the pair that was
    set.  Unsetting it again brings the unavailable answer back. *)
Theorem aggregated_server_fails_closed (E : Env) (a : App) (w : World)
    (h' : Heap) (srv : AggregatedServer) (psrv : http_Server) :
  starts E a w h' srv psrv →
  ∃ p : loc,
    SecureServing_Cert (GenericConfig (server_config srv)) = Some p ∧
    h' !! p = Some (ObjProvider None) ∧
    aggregated_serve srv h' = Some Unavailable ∧
    (∀ h, dynamiccert.CurrentCert h p = None →
          aggregated_serve srv h = Some Unavailable) ∧
    (∀ h cell current, h !! p = Some (ObjProvider cell) →
          aggregated_serve srv (dynamiccert.Set_ p current h) = Some (ServedWith current)) ∧
    (∀ h, aggregated_serve srv (dynamiccert.UnsetCert p h) = Some Unavailable).
Proof.
  intros (c & s & k & start & cert & proxy & Hst & -> & _)%starts_inv.
  inversion Hst as [cfg pod ? ? ? ? ? apicfg ? ca ? ? _ _ HA _ Hcfg Hnew _ _ _]; subst.
  apply allocations_spec in HA as (_ & _ & _ & _ & Hs & _).
  apply getAggregatedAPIServerConfig_ok in Hcfg as (Hcert & _ & _).
  apply apiserver_New_ok in Hnew.
  exists s. unfold aggregated_serve. rewrite Hnew, Hcert.
  repeat split.
  - done.
  - unfold dynamiccert.CurrentCert. by rewrite Hs.
  - by intros h ->.
  - intros h cell current Hp. by rewrite (provider_Set_current _ _ _ cell).
  - intros h. by rewrite provider_Unset_current.
Qed.

Lemma aggregated_server_fails_closed_witness :
  ∃ p : loc,
    SecureServing_Cert (GenericConfig (server_config demoServer)) = Some p ∧
    demoHeap !! p = Some (ObjProvider None) ∧
    aggregated_serve demoServer demoHeap = Some Unavailable ∧
    (∀ h, dynamiccert.CurrentCert h p = None →
          aggregated_serve demoServer h = Some Unavailable) ∧
    (∀ h cell current, h !! p = Some (ObjProvider cell) →
          aggregated_serve demoServer (dynamiccert.Set_ p current h)
            = Some (ServedWith current)) ∧
    (∀ h, aggregated_serve demoServer (dynamiccert.UnsetCert p h) = Some Unavailable).
Proof.
  apply (aggregated_server_fails_closed demoEnv demoApp emptyWorld
           demoHeap demoServer demoProxyServer).
  reflexivity.
Defined.

(** ** One cache, two providers *)

(** C5: the cache allocated at start-up is the one installed as the
    authenticator of the aggregated API server and the one handed to the
    impersonation proxy (and the one the controllers were prepared with), so
    an authenticator stored under an id is returned by [Get] through either
    consumer's handle. *)
Theorem cache_shared_by_both_consumers (E : Env) (a : App) (w : World)
    (h' : Heap) (srv : AggregatedServer) (psrv : http_Server) :
  starts E a w h' srv psrv →
  ∃ c : loc,
    h' !! c = Some (ObjCache ∅) ∧
    heap w !! c = None ∧
    extra_Authenticator (Extra (server_config srv)) = c ∧
    proxy_cache (Handler psrv) = c ∧
    ∀ (h : Heap) m (id : AuthenticatorID) (au : Authenticator),
      h !! c = Some (ObjCache m) →
      let h2 := authncache.Store c id au h in
      authncache.Get h2 (extra_Authenticator (Extra (server_config srv))) id = Some au ∧
      authncache.Get h2 (proxy_cache (Handler psrv)) id = Some au.
Proof.
  intros (c & s & k & start & cert & proxy & Hst & -> & _)%starts_inv.
  inversion Hst as [cfg pod ? ? ? ? ? apicfg ? ca ? ? _ _ HA _ Hcfg Hnew _ _ Hproxy]; subst.
  assert (heap w !! c = None) as Hfresh.
  { unfold allocations, authncache.New in HA.
    pose proof (alloc_fresh (ObjCache ∅) (heap w)) as Hf.
    destruct (alloc (ObjCache ∅) (heap w)) as [c0 h1].
    destruct (dynamiccert.New h1) as [s0 h2]. destruct (dynamiccert.New h2) as [k0 h3].
    by injection HA as <- _ _ _. }
  apply allocations_spec in HA as (_ & _ & _ & Hc & _ & _).
  apply getAggregatedAPIServerConfig_ok in Hcfg as (_ & _ & Hextra).
  apply apiserver_New_ok in Hnew. apply impersonator_New_ok in Hproxy.
  exists c. rewrite Hnew, Hextra. simpl. rewrite Hproxy.
  repeat split; try done.
  all: intros; by eapply cache_Store_Get.
Qed.

Lemma cache_shared_by_both_consumers_witness :
  ∃ c : loc,
    demoHeap !! c = Some (ObjCache ∅) ∧
    heap emptyWorld !! c = None ∧
    extra_Authenticator (Extra (server_config demoServer)) = c ∧
    proxy_cache (Handler demoProxyServer) = c ∧
    ∀ (h : Heap) m (id : AuthenticatorID) (au : Authenticator),
      h !! c = Some (ObjCache m) →
      let h2 := authncache.Store c id au h in
      authncache.Get h2 (extra_Authenticator (Extra (server_config demoServer))) id
        = Some au ∧
      authncache.Get h2 (proxy_cache (Handler demoProxyServer)) id = Some au.
Proof.
  apply (cache_shared_by_both_consumers demoEnv demoApp emptyWorld
           demoHeap demoServer demoProxyServer).
  reflexivity.
Defined.

(** C6: start-up creates two different provider objects.  The serving
    provider is the certificate source of the aggregated API server, the
    signing provider backs the certificate authority installed as its
    issuer, and neither location plays the other's role: setting one leaves
    the other unset. *)
Theorem providers_distinct_roles (E : Env) (a : App) (w : World)
    (h' : Heap) (srv : AggregatedServer) (psrv : http_Server) :
  starts E a w h' srv psrv →
  ∃ serving signing : loc,
    serving ≠ signing ∧
    h' !! serving = Some (ObjProvider None) ∧
    h' !! signing = Some (ObjProvider None) ∧
    SecureServing_Cert (GenericConfig (server_config srv)) = Some serving ∧
    extra_Issuer (Extra (server_config srv)) = dynamiccertauthority_New signing ∧
    SecureServing_Cert (GenericConfig (server_config srv)) ≠ Some signing ∧
    extra_Issuer (Extra (server_config srv)) ≠ dynamiccertauthority_New serving ∧
    ∀ current,
      dynamiccert.CurrentCert (dynamiccert.Set_ serving current h') signing = None ∧
      dynamiccert.CurrentCert (dynamiccert.Set_ signing current h') serving = None.
Proof.
  intros (c & s & k & start & cert & proxy & Hst & -> & _)%starts_inv.
  inversion Hst as [cfg pod ? ? ? ? ? apicfg ? ca ? ? _ _ HA _ Hcfg Hnew _ _ _]; subst.
  apply allocations_spec in HA as (_ & _ & Hne & _ & Hs & Hk).
  apply getAggregatedAPIServerConfig_ok in Hcfg as (Hcert & _ & Hextra).
  apply apiserver_New_ok in Hnew.
  exists s, k. rewrite Hnew, Hextra, Hcert. simpl.
  repeat split; try done; try congruence.
  - rewrite provider_Set_other by done. unfold dynamiccert.CurrentCert. by rewrite Hk.
  - rewrite provider_Set_other by done. unfold dynamiccert.CurrentCert. by rewrite Hs.
Qed.

Lemma providers_distinct_roles_witness :
  ∃ serving signing : loc,
    serving ≠ signing ∧
    demoHeap !! serving = Some (ObjProvider None) ∧
    demoHeap !! signing = Some (ObjProvider None) ∧
    SecureServing_Cert (GenericConfig (server_config demoServer)) = Some serving ∧
    extra_Issuer (Extra (server_config demoServer)) = dynamiccertauthority_New signing ∧
    SecureServing_Cert (GenericConfig (server_config demoServer)) ≠ Some signing ∧
    extra_Issuer (Extra (server_config demoServer)) ≠ dynamiccertauthority_New serving ∧
    ∀ current,
      dynamiccert.CurrentCert (dynamiccert.Set_ serving current demoHeap) signing = None ∧
      dynamiccert.CurrentCert (dynamiccert.Set_ signing current demoHeap) serving = None.
Proof.
  apply (providers_distinct_roles demoEnv demoApp emptyWorld
           demoHeap demoServer demoProxyServer).
  reflexivity.
Defined.

(** ** Start-up failures and the proxy listener *)

(** C7: when a start-up step fails (loading the configuration, reading the
    pod metadata, preparing the controllers, building or completing the
    aggregated API server configuration, creating the impersonation CA,
    issuing the impersonation certificate, constructing the impersonation
    proxy), [runServer] returns a non-nil error that wraps the step's error
    under the step's message, no goroutine has been spawned for the proxy
    and the aggregated server has not been run. *)
Theorem startup_failure_is_fatal (E : Env) (a : App) (w : World)
    (prefix : string) (e : error) :
  startup_fails E a (heap w) prefix e →
  (runServer E a w).1 = Some (Errorf prefix e) ∧
  Unwrap (Errorf prefix e) = Some e ∧
  goroutines (runServer E a w).2 = goroutines w ∧
  events (runServer E a w).2 = events w.
Proof.
  intros Hf.
  destruct (runServer_cases E a w)
    as [(p1 & e1 & h1 & Hf1 & ->)|(c & s & k & h1 & start & srv & cert & proxy & Hst & _)].
  - by destruct (startup_fails_functional _ _ _ _ _ _ _ Hf Hf1) as [-> ->].
  - destruct (startup_fails_excludes_startup _ _ _ _ _ _ _ _ _ _ _ _ _ Hf Hst).
Qed.

Lemma startup_failure_is_fatal_witness :
  (runServer noProxyEnv demoApp emptyWorld).1
    = Some (Errorf "could not create impersonation proxy"
                   (ErrNew "could not get in-cluster config")) ∧
  Unwrap (Errorf "could not create impersonation proxy"
                 (ErrNew "could not get in-cluster config"))
    = Some (ErrNew "could not get in-cluster config") ∧
  goroutines (runServer noProxyEnv demoApp emptyWorld).2 = goroutines emptyWorld ∧
  events (runServer noProxyEnv demoApp emptyWorld).2 = events emptyWorld.
Proof.
  apply (startup_failure_is_fatal noProxyEnv demoApp emptyWorld).
  eapply (fails_impersonation_proxy noProxyEnv demoApp (heap emptyWorld)
            demoConfig (mkPodInfo "concierge") 1%positive 2%positive 3%positive
            demoHeap _ demoAPIConfig demoServer
            (mkCA (mkName "test CA") impersonationTTL (mkCert ["ca"] "cakey")) demoLeaf);
    reflexivity.
Defined.

(** C9: when [ListenAndServeTLS] of the impersonation proxy returns an
    error, the goroutine that called it only logs that error; [runServer]
    returns what running the aggregated API server returns, whatever the
    listener's outcome is, and the aggregated server has been run. *)
Theorem proxy_listen_failure_not_fatal (E : Env) (a : App) (w : World)
    (h' : Heap) (srv : AggregatedServer) (psrv : http_Server) (err : error) :
  starts E a w h' srv psrv →
  http_ListenAndServeTLS E psrv = Some err →
  (runServer E a w).1 = genericapiserver_Run E srv ∧
  (∀ outcome, runServer (with_listen outcome E) a w = runServer E a w) ∧
  EvRun srv ∈ events (runServer E a w).2 ∧
  goroutines (runServer E a w).2
    = (goroutines w ++ [GoServeImpersonationProxy psrv])%list ∧
  ∀ w1 : World,
    run_goroutine E (GoServeImpersonationProxy psrv) w1 =
      mkWorld (heap w1) (goroutines w1)
        (events w1 ++ [EvListenAndServeTLS psrv;
                       EvErrorS err "could not serve impersonation proxy"]).
Proof.
  intros Hs Herr. pose proof Hs as Hw. unfold starts in Hw.
  apply starts_inv in Hs as (c & s & k & start & cert & proxy & _ & -> & Hret).
  rewrite Hw. simpl. split_and!.
  - done.
  - intros outcome. apply runServer_ignores_listen.
  - set_solver.
  - done.
  - intros w1. rewrite Herr. by rewrite <- app_assoc.
Qed.

Lemma proxy_listen_failure_not_fatal_witness :
  (runServer demoEnv demoApp emptyWorld).1 = genericapiserver_Run demoEnv demoServer ∧
  (∀ outcome,
      runServer (with_listen outcome demoEnv) demoApp emptyWorld
        = runServer demoEnv demoApp emptyWorld) ∧
  EvRun demoServer ∈ events (runServer demoEnv demoApp emptyWorld).2 ∧
  goroutines (runServer demoEnv demoApp emptyWorld).2
    = (goroutines emptyWorld ++ [GoServeImpersonationProxy demoProxyServer])%list ∧
  ∀ w1 : World,
    run_goroutine demoEnv (GoServeImpersonationProxy demoProxyServer) w1 =
      mkWorld (heap w1) (goroutines w1)
        (events w1 ++ [EvListenAndServeTLS demoProxyServer;
                       EvErrorS (ErrNew "listen tcp 0.0.0.0:8444: bind: address already in use")
                                "could not serve impersonation proxy"]).
Proof.
  apply (proxy_listen_failure_not_fatal demoEnv demoApp emptyWorld
           demoHeap demoServer demoProxyServer); reflexivity.
Defined.

(** ** The impersonation proxy handler *)

Section ProxyHandler.
Import impersonator.

Lemma Values_Add_same (key value : string) (h : Header) :
  Values (Add key value h) key = (Values h key ++ [value])%list.
Proof. unfold Values at 1, Add. by rewrite lookup_insert_eq. Qed.

Lemma Values_Add_other (key key' value : string) (h : Header) :
  key ≠ key' → Values (Add key value h) key' = Values h key'.
Proof. intros Hne. unfold Values, Add. by rewrite lookup_insert_ne. Qed.

Lemma Values_add_groups (gs : list string) (h : Header) :
  Values (foldl (λ acc g, Add ImpersonateGroup g acc) h gs) ImpersonateGroup
    = (Values h ImpersonateGroup ++ gs)%list.
Proof.
  revert h. induction gs as [|g gs IH]; intros h; simpl.
  - by rewrite app_nil_r.
  - by rewrite IH, Values_Add_same, <- app_assoc.
Qed.

Lemma Values_add_groups_other (gs : list string) (h : Header) (key : string) :
  key ≠ ImpersonateGroup →
  Values (foldl (λ acc g, Add ImpersonateGroup g acc) h gs) key = Values h key.
Proof.
  intros Hne. revert h. induction gs as [|g gs IH]; intros h; simpl; [done|].
  rewrite IH. by apply Values_Add_other.
Qed.

Lemma strip_impersonation_idem (h : Header) :
  strip_impersonation (strip_impersonation h) = strip_impersonation h.
Proof.
  unfold strip_impersonation, Del. apply map_eq. intros key.
  rewrite !lookup_delete. repeat case_decide; done.
Qed.

(** What the forwarded request carries under each header name. *)
Lemma impersonation_headers_values (ident : Identity) (h : Header) :
  Values (impersonation_headers ident h) ImpersonateUser = [username ident] ∧
  Values (impersonation_headers ident h) ImpersonateGroup = groups ident ∧
  ∀ key, key ≠ ImpersonateUser → key ≠ ImpersonateGroup →
         Values (impersonation_headers ident h) key = Values h key.
Proof.
  unfold impersonation_headers. split_and!.
  - rewrite Values_add_groups_other by done.
    unfold Values, Set_. by rewrite lookup_insert_eq.
  - rewrite Values_add_groups.
    unfold Values at 1, Set_, strip_impersonation, Del.
    rewrite lookup_insert_ne by done. by rewrite lookup_delete_eq.
  - intros key Hu Hg. rewrite Values_add_groups_other by done.
    unfold Values, Set_, strip_impersonation, Del.
    rewrite lookup_insert_ne by done. by rewrite !lookup_delete_ne.
Qed.

(** C2: for a request that authenticates, exactly one request goes
    upstream; its [Impersonate-User] values are the authenticated username
    alone, its [Impersonate-Group] values are the authenticated groups, one
    per group; it is the request that the same inbound request with every
    impersonation header removed would produce, so no client-supplied
    impersonation value survives; the other headers, the method, the path,
    the query and the body are the inbound ones. *)
Theorem proxy_forwards_impersonated_request
    (p : Proxy) (id : AuthenticatorID) (transport : Request → result Response)
    (h : Heap) (r : Request) (token : string) (au : Authenticator) (ident : Identity) :
  bearer_token r = Some token →
  authncache.Get h (proxy_cache p) id = Some au →
  au token = Some ident →
  ∃ fwd : Request,
    upstream_requests (ServeHTTP p id transport h r).2 = [fwd] ∧
    Values (Headers fwd) ImpersonateUser = [username ident] ∧
    Values (Headers fwd) ImpersonateGroup = groups ident ∧
    Headers fwd = impersonation_headers ident (strip_impersonation (Headers r)) ∧
    (∀ key, key ≠ ImpersonateUser → key ≠ ImpersonateGroup →
            Values (Headers fwd) key = Values (Headers r) key) ∧
    Method fwd = Method r ∧ Path fwd = Path r ∧
    RawQuery fwd = RawQuery r ∧ Body fwd = Body r.
Proof.
  intros Htok Hget Hau. unfold ServeHTTP. rewrite Htok, Hget, Hau.
  eexists. split.
  - destruct (transport _); simpl; reflexivity.
  - simpl. destruct (impersonation_headers_values ident (Headers r)) as (Hu & Hg & Ho).
    split_and!; try done.
    unfold impersonation_headers. by rewrite strip_impersonation_idem.
Qed.

(** C3: a request without a usable credential, for an authenticator id the
    cache does not hold, or with a token the authenticator rejects is
    answered with status 401; nothing is sent upstream and the
    authenticator is asked at most once. *)
Theorem proxy_rejects_unauthenticated
    (p : Proxy) (id : AuthenticatorID) (transport : Request → result Response)
    (h : Heap) (r : Request) :
  (bearer_token r = None ∨
   authncache.Get h (proxy_cache p) id = None ∨
   ∃ token au, bearer_token r = Some token ∧
               authncache.Get h (proxy_cache p) id = Some au ∧
               au token = None) →
  StatusCode (ServeHTTP p id transport h r).1 = 401 ∧
  upstream_requests (ServeHTTP p id transport h r).2 = [] ∧
  (length (authentications (ServeHTTP p id transport h r).2) ≤ 1)%nat.
Proof.
  unfold ServeHTTP.
  intros [Htok|[Hget|(token & au & Htok & Hget & Hau)]].
  - rewrite Htok. simpl. split_and!; [done|done|lia].
  - destruct (bearer_token r); rewrite ?Hget; simpl; split_and!; done || lia.
  - rewrite Htok, Hget, Hau. simpl. split_and!; done || lia.
Qed.

End ProxyHandler.

Lemma proxy_forwards_impersonated_request_witness :
  ∃ fwd : impersonator.Request,
    impersonator.upstream_requests
      (impersonator.ServeHTTP demoProxy webhookID okTransport scenarioHeap forgedRequest).2
      = [fwd] ∧
    impersonator.Values (impersonator.Headers fwd) impersonator.ImpersonateUser = ["alice"] ∧
    impersonator.Values (impersonator.Headers fwd) impersonator.ImpersonateGroup = ["admins"] ∧
    impersonator.Headers fwd
      = impersonator.impersonation_headers (mkIdentity "alice" ["admins"])
          (impersonator.strip_impersonation (impersonator.Headers forgedRequest)) ∧
    (∀ key, key ≠ impersonator.ImpersonateUser → key ≠ impersonator.ImpersonateGroup →
            impersonator.Values (impersonator.Headers fwd) key
              = impersonator.Values (impersonator.Headers forgedRequest) key) ∧
    impersonator.Method fwd = "GET" ∧
    impersonator.Path fwd = "/api/v1/namespaces" ∧
    impersonator.RawQuery fwd = "limit=10" ∧
    impersonator.Body fwd = "".
Proof.
  apply (proxy_forwards_impersonated_request demoProxy webhookID okTransport
           scenarioHeap forgedRequest "good-token" aliceAuthenticator
           (mkIdentity "alice" ["admins"])); reflexivity.
Defined.

Lemma proxy_rejects_unauthenticated_witness :
  impersonator.StatusCode
    (impersonator.ServeHTTP demoProxy webhookID okTransport scenarioHeap badTokenRequest).1
    = 401 ∧
  impersonator.upstream_requests
    (impersonator.ServeHTTP demoProxy webhookID okTransport scenarioHeap badTokenRequest).2
    = [] ∧
  (length (impersonator.authentications
     (impersonator.ServeHTTP demoProxy webhookID okTransport scenarioHeap badTokenRequest).2)
   ≤ 1)%nat.
Proof.
  apply (proxy_rejects_unauthenticated demoProxy webhookID okTransport
           scenarioHeap badTokenRequest).
  right; right. exists "bad-token", aliceAuthenticator. split_and!; reflexivity.
Defined.

(** ** The role-binding test helper *)

Section RoleBindingHelper.
Import library.
Context {S : Type} `{ClusterRoleBindings S}.

(** C10: [addTestClusterRoleBinding] calls [Create], once and with the given
  binding, exactly when the initial [Get] fails with a status error whose
  code is 404.  When [Get] succeeds nothing is created; when [Get] fails in
  any other way the test is stopped as failed before any [Create].  On
  every path that is not stopped, one cleanup deleting the binding of that
  name is registered, and on a stopped path none is.  The registered
  cleanup, whenever it runs, makes exactly one [Delete] call for that name
  on the cluster as it then is, keeps the state [Delete] leaves, and stops
  the test as failed exactly when [Delete] returns an error. *)
Theorem addTestClusterRoleBinding_creates_only_when_missing
  (binding : ClusterRoleBinding) (t : T S) :
let r := addTestClusterRoleBinding binding t in
(created r.2 = created t ∨ created r.2 = (created t ++ [binding])%list) ∧
(created r.2 ≠ created t ↔
   ∃ msg, Get (cluster t) (Name binding) = Some (StatusError StatusNotFound msg)) ∧
(Get (cluster t) (Name binding) = None → r.1 = Some tt) ∧
(∀ err, Get (cluster t) (Name binding) = Some err →
        (∀ msg, err ≠ StatusError StatusNotFound msg) →
        r.1 = None ∧ failed r.2 = true ∧ calls r.2 = (calls t ++ [CalledGet (Name binding)])%list) ∧
(r.1 = Some tt →
   cleanups r.2 = (cleanups t ++ [DeleteBinding (Name binding)])%list) ∧
(r.1 = None → cleanups r.2 = cleanups t ∧ failed r.2 = true) ∧
(∀ t' : T S,
   run_cleanup (DeleteBinding (Name binding)) t' =
     (match (Delete (cluster t') (Name binding)).1 with
      | None => Some tt
      | Some _ => None
      end,
      mkT (Delete (cluster t') (Name binding)).2
          (calls t' ++ [CalledDelete (Name binding)])
          (cleanups t')
          (match (Delete (cluster t') (Name binding)).1 with
           | None => failed t'
           | Some _ => true
           end))).
Proof.
assert (∀ t' : T S,
   run_cleanup (DeleteBinding (Name binding)) t' =
     (match (Delete (cluster t') (Name binding)).1 with
      | None => Some tt
      | Some _ => None
      end,
      mkT (Delete (cluster t') (Name binding)).2
          (calls t' ++ [CalledDelete (Name binding)])
          (cleanups t')
          (match (Delete (cluster t') (Name binding)).1 with
           | None => failed t'
           | Some _ => true
           end))) as Hcleanup.
{ intros t'. unfold run_cleanup, andThen, client_Delete, require_NoError,
    require_True, FailNow.
  by destruct (Delete (cluster t') (Name binding)) as [[e|] s']. }
assert (∀ l : list ClusterRoleBinding, (l ++ [binding])%list ≠ l) as Hgrow.
{ intros l Heq. apply (f_equal length) in Heq. rewrite length_app in Heq.
  simpl in Heq. lia. }
unfold addTestClusterRoleBinding, andThen, client_Get, client_Create, Cleanup,
  require_NoError, require_Equal, require_True, FailNow, created.
cbn [cluster calls cleanups failed].
destruct (Get (cluster t) (Name binding)) as [[code msg|msg]|] eqn:Hget;
  cbn [cluster calls cleanups failed fst snd].
- destruct (bool_decide (StatusNotFound = code)) eqn:Hcode;
    cbn [cluster calls cleanups failed fst snd].
  + apply bool_decide_eq_true in Hcode as <-.
    destruct (Create (cluster t) binding) as [[err|] s'] eqn:Hcreate;
      cbn [cluster calls cleanups failed fst snd];
      rewrite !omap_app; simpl; rewrite ?app_nil_r.
    all: split_and!; eauto; try done.
    all: try (split; [eauto | intros _; apply Hgrow]).
    all: intros err0 [= <-] Hne; by destruct (Hne msg).
  + apply bool_decide_eq_false in Hcode.
    rewrite !omap_app; simpl; rewrite ?app_nil_r.
    split_and!; eauto; try done.
    * split; [done|]. intros [msg' [= ? ?]]. by subst.
- rewrite !omap_app; simpl; rewrite ?app_nil_r.
  split_and!; eauto; try done.
  split; [done|]. intros [msg' [=]].
- rewrite !omap_app; simpl; rewrite ?app_nil_r.
  split_and!; eauto; try done.
  split; [done|]. intros [msg' [=]].
Qed.

End RoleBindingHelper.

Lemma addTestClusterRoleBinding_creates_only_when_missing_witness :
  let r := @library.addTestClusterRoleBinding _ fakeCluster viewBinding freshTest in
  (library.created r.2 = library.created freshTest ∨
   library.created r.2 = (library.created freshTest ++ [viewBinding])%list) ∧
  (library.created r.2 ≠ library.created freshTest ↔
     ∃ msg, @library.Get _ fakeCluster (library.cluster freshTest) (library.Name viewBinding)
            = Some (library.StatusError library.StatusNotFound msg)) ∧
  (@library.Get _ fakeCluster (library.cluster freshTest) (library.Name viewBinding) = None →
   r.1 = Some tt) ∧
  (∀ err, @library.Get _ fakeCluster (library.cluster freshTest) (library.Name viewBinding)
          = Some err →
          (∀ msg, err ≠ library.StatusError library.StatusNotFound msg) →
          r.1 = None ∧ library.failed r.2 = true ∧
          library.calls r.2
            = (library.calls freshTest ++ [library.CalledGet (library.Name viewBinding)])%list) ∧
  (r.1 = Some tt →
     library.cleanups r.2
       = (library.cleanups freshTest ++ [library.DeleteBinding (library.Name viewBinding)])%list) ∧
  (r.1 = None →
     library.cleanups r.2 = library.cleanups freshTest ∧ library.failed r.2 = true) ∧
  (∀ t' : library.T (gset string),
     @library.run_cleanup _ fakeCluster
       (library.DeleteBinding (library.Name viewBinding)) t' =
       (match (@library.Delete _ fakeCluster (library.cluster t')
                 (library.Name viewBinding)).1 with
        | None => Some tt
        | Some _ => None
        end,
        library.mkT
          (@library.Delete _ fakeCluster (library.cluster t') (library.Name viewBinding)).2
          (library.calls t' ++ [library.CalledDelete (library.Name viewBinding)])
          (library.cleanups t')
          (match (@library.Delete _ fakeCluster (library.cluster t')
                    (library.Name viewBinding)).1 with
           | None => library.failed t'
           | Some _ => true
           end))).
Proof.
  apply (@addTestClusterRoleBinding_creates_only_when_missing _ fakeCluster
           viewBinding freshTest).
Defined.

(** The helper on a cluster without the binding: one [Get], one [Create],
    one cleanup. *)
Example role_binding_created_when_missing :
  @library.addTestClusterRoleBinding _ fakeCluster viewBinding freshTest =
    (Some tt,
     library.mkT {[bindingName]}
       [library.CalledGet bindingName; library.CalledCreate viewBinding]
       [library.DeleteBinding bindingName] false).
Proof. reflexivity. Qed.

(** On a cluster that already holds it: no [Create], still one cleanup. *)
Example role_binding_kept_when_present :
  @library.addTestClusterRoleBinding _ fakeCluster viewBinding rerunTest =
    (Some tt,
     library.mkT {[bindingName]} [library.CalledGet bindingName]
       [library.DeleteBinding bindingName] false).
Proof. reflexivity. Qed.

(** A status error other than 404 stops the test before any [Create]. *)
Example role_binding_forbidden_stops_test :
  @library.addTestClusterRoleBinding _ forbiddenCluster viewBinding freshTest =
    (None, library.mkT ∅ [library.CalledGet bindingName] [] true).
Proof. reflexivity. Qed.

(** So does an error that is not a status error. *)
Example role_binding_unreachable_stops_test :
  @library.addTestClusterRoleBinding _ unreachableCluster viewBinding freshTest =
    (None, library.mkT ∅ [library.CalledGet bindingName] [] true).
Proof. reflexivity. Qed.

(** The registered cleanup deletes the binding again. *)
Example role_binding_cleanup_deletes :
  (@library.run_cleanup _ fakeCluster (library.DeleteBinding bindingName)
     (@library.addTestClusterRoleBinding _ fakeCluster viewBinding freshTest).2).2
    .(library.cluster) = ∅.
Proof. reflexivity. Qed.

(** Scenarios A and D of the specification: the forged impersonation
    headers are replaced by alice's identity. *)
Example scenario_forged_headers_replaced :
  impersonator.ServeHTTP demoProxy webhookID okTransport scenarioHeap forgedRequest =
    (impersonator.mkResponse 200 ∅ "ok",
     [impersonator.CacheGet webhookID;
      impersonator.Authenticate webhookID "good-token";
      impersonator.RoundTrip "https://kubernetes.default.svc"
        (impersonator.mkRequest "GET" "/api/v1/namespaces" "limit=10"
           (<["Authorization" := ["Bearer good-token"]]>
              (<["Impersonate-User" := ["alice"]]>
                 (<["Impersonate-Group" := ["admins"]]> ∅)))
           "")]).
Proof. reflexivity. Qed.

(** Scenario B: a rejected token is answered with 401 and nothing goes upstream. *)
Example scenario_bad_token_rejected :
  impersonator.ServeHTTP demoProxy webhookID okTransport scenarioHeap badTokenRequest =
    (impersonator.mkResponse 401 ∅ "not authenticated",
     [impersonator.CacheGet webhookID;
      impersonator.Authenticate webhookID "bad-token"]).
Proof. reflexivity. Qed.

(** The demonstration run of [runServer]. *)
Example runServer_demo :
  runServer demoEnv demoApp emptyWorld =
    (None,
     mkWorld demoHeap [GoServeImpersonationProxy demoProxyServer] [EvRun demoServer]).
Proof. reflexivity. Qed.

Example demoHeap_contents :
  map_to_list demoHeap =
    [(3%positive, ObjProvider None); (2%positive, ObjProvider None);
     (1%positive, ObjCache ∅)].
Proof. reflexivity. Qed.

(** ** Further properties of [runServer] *)

(** X1: the controllers are prepared with the very objects the servers use.
    The post-start hook installed in the aggregated server is the closure
    [PrepareControllers] returned for a configuration that names the cache
    both servers authenticate with, the provider the aggregated server
    serves with and the provider its issuer signs with, next to the pod
    information and the settings read from the configuration file. *)
Theorem controllers_prepared_with_server_objects (E : Env) (a : App) (w : World)
    (h' : Heap) (srv : AggregatedServer) (psrv : http_Server) :
  starts E a w h' srv psrv →
  ∃ cfg pod cc,
    concierge_FromPath E (configPath a) = Ok cfg ∧
    downward_Load E (downwardAPIPath a) = Ok pod ∧
    controllermanager_PrepareControllers E cc
      = Ok (extra_StartControllersPostStartHook (Extra (server_config srv))) ∧
    ServerInstallationInfo cc = pod ∧
    APIGroupSuffix cc = cfg_APIGroupSuffix cfg ∧
    NamesConfig cc = cfg_NamesConfig cfg ∧
    Labels cc = cfg_Labels cfg ∧
    KubeCertAgentConfig cc = cfg_KubeCertAgentConfig cfg ∧
    DiscoveryURLOverride cc = cfg_DiscoveryURL cfg ∧
    AuthenticatorCache cc = extra_Authenticator (Extra (server_config srv)) ∧
    AuthenticatorCache cc = proxy_cache (Handler psrv) ∧
    SecureServing_Cert (GenericConfig (server_config srv))
      = Some (DynamicServingCertProvider cc) ∧
    extra_Issuer (Extra (server_config srv))
      = dynamiccertauthority_New (DynamicSigningCertProvider cc).
Proof.
  intros (c & s & k & start & cert & proxy & Hst & -> & _)%starts_inv.
  inversion Hst as [cfg pod ? ? ? ? ? apicfg ? ca ? ? H1 H2 _ H3 Hcfg Hnew _ _ Hproxy]; subst.
  apply getAggregatedAPIServerConfig_ok in Hcfg as (Hcert & _ & Hextra).
  apply apiserver_New_ok in Hnew. apply impersonator_New_ok in Hproxy.
  exists cfg, pod, (controllersConfig cfg pod c s k).
  rewrite Hnew, Hextra, Hcert. simpl. rewrite Hproxy. done.
Qed.

Lemma controllers_prepared_with_server_objects_witness :
  ∃ cfg pod cc,
    concierge_FromPath demoEnv (configPath demoApp) = Ok cfg ∧
    downward_Load demoEnv (downwardAPIPath demoApp) = Ok pod ∧
    controllermanager_PrepareControllers demoEnv cc
      = Ok (extra_StartControllersPostStartHook (Extra (server_config demoServer))) ∧
    ServerInstallationInfo cc = pod ∧
    APIGroupSuffix cc = cfg_APIGroupSuffix cfg ∧
    NamesConfig cc = cfg_NamesConfig cfg ∧
    Labels cc = cfg_Labels cfg ∧
    KubeCertAgentConfig cc = cfg_KubeCertAgentConfig cfg ∧
    DiscoveryURLOverride cc = cfg_DiscoveryURL cfg ∧
    AuthenticatorCache cc = extra_Authenticator (Extra (server_config demoServer)) ∧
    AuthenticatorCache cc = proxy_cache (Handler demoProxyServer) ∧
    SecureServing_Cert (GenericConfig (server_config demoServer))
      = Some (DynamicServingCertProvider cc) ∧
    extra_Issuer (Extra (server_config demoServer))
      = dynamiccertauthority_New (DynamicSigningCertProvider cc).
Proof.
  apply (controllers_prepared_with_server_objects demoEnv demoApp emptyWorld
           demoHeap demoServer demoProxyServer).
  reflexivity.
Defined.



(** X4: an error returned by [runServer] is of one of two kinds.  Either a
    start-up step failed: the error is that step's error wrapped under the
    step's message and nothing was started.  Or start-up succeeded, both
    servers were started, and the error is, unwrapped, the one the aggregated
    server's run returned. *)
Theorem runServer_error_taxonomy (E : Env) (a : App) (w : World) (err : error) :
  (runServer E a w).1 = Some err →
  (∃ prefix e,
      err = Errorf prefix e ∧
      startup_fails E a (heap w) prefix e ∧
      goroutines (runServer E a w).2 = goroutines w ∧
      events (runServer E a w).2 = events w)
  ∨
  (∃ h' srv psrv,
      starts E a w h' srv psrv ∧
      genericapiserver_Run E srv = Some err).
Proof.
  intros Herr.
  destruct (runServer_cases E a w)
    as [(p & e & h1 & Hf & Hr)|(c & s & k & h1 & start & srv & cert & proxy & _ & Hr)].
  - left. exists p, e. rewrite Hr in Herr |- *. simpl in *. by injection Herr as <-.
  - right. exists h1, srv, (impersonationServer proxy cert). unfold starts.
    rewrite Hr in Herr |- *. done.
Qed.

Lemma runServer_error_taxonomy_witness :
  (∃ prefix e,
      ErrNew "listen tcp :8443: bind: permission denied" = Errorf prefix e ∧
      startup_fails runFailsEnv demoApp (heap emptyWorld) prefix e ∧
      goroutines (runServer runFailsEnv demoApp emptyWorld).2 = goroutines emptyWorld ∧
      events (runServer runFailsEnv demoApp emptyWorld).2 = events emptyWorld)
  ∨
  (∃ h' srv psrv,
      starts runFailsEnv demoApp emptyWorld h' srv psrv ∧
      genericapiserver_Run runFailsEnv srv
        = Some (ErrNew "listen tcp :8443: bind: permission denied")).
Proof.
  apply (runServer_error_taxonomy runFailsEnv demoApp emptyWorld).
  reflexivity.
Defined.

(** X5: a certificate lifetime and a renewal window of at most 9223372036
    seconds in absolute value reach the controllers exactly, as that many
    thousand million nanoseconds. *)
Theorem serving_cert_durations_exact (cfg : concierge_Config) (pod : PodInfo)
    (c s k : loc) :
  (-9223372036 ≤ cfg_DurationSeconds cfg ≤ 9223372036)%Z →
  (-9223372036 ≤ cfg_RenewBeforeSeconds cfg ≤ 9223372036)%Z →
  ServingCertDuration (controllersConfig cfg pod c s k)
    = cfg_DurationSeconds cfg * 1000000000 ∧
  ServingCertRenewBefore (controllersConfig cfg pod c s k)
    = cfg_RenewBeforeSeconds cfg * 1000000000.
Proof.
  intros Hd Hr. simpl. unfold Duration_mul, int64_wrap, Second.
  rewrite !Z.mod_small by lia. lia.
Qed.

Lemma serving_cert_durations_exact_witness :
  ServingCertDuration
    (controllersConfig demoConfig (mkPodInfo "concierge") 1%positive 2%positive 3%positive)
    = cfg_DurationSeconds demoConfig * 1000000000 ∧
  ServingCertRenewBefore
    (controllersConfig demoConfig (mkPodInfo "concierge") 1%positive 2%positive 3%positive)
    = cfg_RenewBeforeSeconds demoConfig * 1000000000.
Proof.
  apply (serving_cert_durations_exact demoConfig (mkPodInfo "concierge")
           1%positive 2%positive 3%positive); simpl; lia.
Defined.

(** X6: a certificate lifetime from 9223372037 up to 18446744073 seconds
    overflows the multiplication by [time.Second]: the duration handed to the
    controllers is the product less 2^64, a negative number. *)
Theorem serving_cert_duration_wraps (cfg : concierge_Config) (pod : PodInfo)
    (c s k : loc) :
  (9223372037 ≤ cfg_DurationSeconds cfg ≤ 18446744073)%Z →
  ServingCertDuration (controllersConfig cfg pod c s k)
    = cfg_DurationSeconds cfg * 1000000000 - 2 ^ 64 ∧
  (ServingCertDuration (controllersConfig cfg pod c s k) < 0)%Z.
Proof.
  intros Hd. simpl. unfold Duration_mul, int64_wrap, Second.
  replace (cfg_DurationSeconds cfg * 1000000000 + 2 ^ 63)
    with (cfg_DurationSeconds cfg * 1000000000 - 2 ^ 63 + 1 * 2 ^ 64) by lia.
  rewrite Z.mod_add by lia. rewrite Z.mod_small by lia. lia.
Qed.

Lemma serving_cert_duration_wraps_witness :
  ServingCertDuration
    (controllersConfig hugeDurationConfig (mkPodInfo "concierge")
       1%positive 2%positive 3%positive)
    = cfg_DurationSeconds hugeDurationConfig * 1000000000 - 2 ^ 64 ∧
  (ServingCertDuration
    (controllersConfig hugeDurationConfig (mkPodInfo "concierge")
       1%positive 2%positive 3%positive) < 0)%Z.
Proof.
  apply (serving_cert_duration_wraps hugeDurationConfig (mkPodInfo "concierge")
           1%positive 2%positive 3%positive); simpl; lia.
Defined.

(** X7: when no API group can be made from the configured suffix,
    [runServer] fails, after the controllers were prepared, with "could not
    configure aggregated API server" wrapping the unwrapped message "cannot
    make api group from <group>/<suffix>"; the options are never applied, so
    the outcome does not depend on [ApplyTo], and nothing is started. *)
Theorem runServer_rejects_bad_api_group_suffix (E : Env) (a : App) (w : World)
    (cfg : concierge_Config) (pod : PodInfo) (c s k : loc) (h' : Heap)
    (start : StartControllersFunc) :
  concierge_FromPath E (configPath a) = Ok cfg →
  downward_Load E (downwardAPIPath a) = Ok pod →
  allocations (heap w) = (c, s, k, h') →
  controllermanager_PrepareControllers E (controllersConfig cfg pod c s k) = Ok start →
  apigroup_Make E (loginv1alpha1_GroupName E) (cfg_APIGroupSuffix cfg) = None →
  runServer E a w =
    (Some (Errorf "could not configure aggregated API server"
             (ErrNew ("cannot make api group from " +:+ loginv1alpha1_GroupName E
                        +:+ "/" +:+ cfg_APIGroupSuffix cfg))),
     mkWorld h' (goroutines w) (events w)).
Proof.
  intros H1 H2 HA H3 Hmake.
  unfold runServer, runServer_body, bind. rewrite H1, H2.
  unfold try_wrap at 1 2, new_cache, new_provider. unfold allocations in HA.
  destruct (authncache.New (heap w)) as [c0 h0]; cbn [heap goroutines events].
  destruct (dynamiccert.New h0) as [s0 h2]; cbn [heap goroutines events].
  destruct (dynamiccert.New h2) as [k0 h3]; cbn [heap goroutines events].
  injection HA as -> -> -> ->.
  rewrite H3. cbn [try_wrap]. unfold getAggregatedAPIServerConfig.
  by rewrite Hmake.
Qed.

Lemma runServer_rejects_bad_api_group_suffix_witness :
  runServer badSuffixEnv demoApp emptyWorld =
    (Some (Errorf "could not configure aggregated API server"
             (ErrNew ("cannot make api group from "
                        +:+ loginv1alpha1_GroupName badSuffixEnv
                        +:+ "/" +:+ cfg_APIGroupSuffix demoConfig))),
     mkWorld demoHeap (goroutines emptyWorld) (events emptyWorld)).
Proof.
  apply (runServer_rejects_bad_api_group_suffix badSuffixEnv demoApp emptyWorld
           demoConfig (mkPodInfo "concierge") 1%positive 2%positive 3%positive demoHeap
           (mkStartControllers
              (controllersConfig demoConfig (mkPodInfo "concierge")
                 1%positive 2%positive 3%positive)));
    reflexivity.
Defined.

(** ** Role bindings on a cluster that stores them by name *)

Section LawfulCluster.
Import library.
Context {S : Type} `{ClusterRoleBindings S}.
Variable present : S → string → bool.
Hypothesis cluster_lawful : Lawful present.

Lemma helper_when_absent (b : ClusterRoleBinding) (t : T S) :
  present (cluster t) (Name b) = false →
  ∃ s',
    addTestClusterRoleBinding b t =
      (Some tt,
       mkT s' (calls t ++ [CalledGet (Name b); CalledCreate b])
              (cleanups t ++ [DeleteBinding (Name b)]) (failed t)) ∧
    ∀ n, present s' n = if decide (n = Name b) then true else present (cluster t) n.
Proof.
  intros Hp.
  destruct (get_absent _ cluster_lawful _ _ Hp) as [msg Hget].
  destruct (create_absent _ cluster_lawful _ _ Hp) as (s' & Hcreate & Hs').
  exists s'. split; [|done].
  unfold addTestClusterRoleBinding, andThen, client_Get, client_Create, Cleanup,
    require_NoError, require_Equal, require_True.
  cbn [cluster calls cleanups failed]. rewrite Hget.
  rewrite bool_decide_eq_true_2 by done.
  cbn [cluster calls cleanups failed]. rewrite Hcreate.
  cbn [cluster calls cleanups failed]. by rewrite <- app_assoc.
Qed.

Lemma helper_when_present (b : ClusterRoleBinding) (t : T S) :
  present (cluster t) (Name b) = true →
  addTestClusterRoleBinding b t =
    (Some tt,
     mkT (cluster t) (calls t ++ [CalledGet (Name b)])
         (cleanups t ++ [DeleteBinding (Name b)]) (failed t)).
Proof.
  intros Hp. pose proof (get_present _ cluster_lawful _ _ Hp) as Hget.
  unfold addTestClusterRoleBinding, andThen, client_Get, Cleanup.
  cbn [cluster calls cleanups failed]. by rewrite Hget.
Qed.

Lemma cleanup_when_present (n : string) (t : T S) :
  present (cluster t) n = true →
  ∃ s',
    run_cleanup (DeleteBinding n) t =
      (Some tt, mkT s' (calls t ++ [CalledDelete n]) (cleanups t) (failed t)) ∧
    ∀ m, present s' m = if decide (m = n) then false else present (cluster t) m.
Proof.
  intros Hp. destruct (delete_present _ cluster_lawful _ _ Hp) as (s' & Hd & Hs').
  exists s'. split; [|done].
  unfold run_cleanup, andThen, client_Delete, require_NoError, require_True.
  by rewrite Hd.
Qed.

Lemma cleanup_when_absent (n : string) (t : T S) :
  present (cluster t) n = false →
  ∃ s',
    run_cleanup (DeleteBinding n) t =
      (None, mkT s' (calls t ++ [CalledDelete n]) (cleanups t) true) ∧
    ∀ m, present s' m = present (cluster t) m.
Proof.
  intros Hp. destruct (delete_absent _ cluster_lawful _ _ Hp) as (e & s' & Hd & Hs').
  exists s'. split; [|done].
  unfold run_cleanup, andThen, client_Delete, require_NoError, require_True, FailNow.
  by rewrite Hd.
Qed.

(** X8: on a cluster that does not hold the binding, the helper creates it
    and the cleanup it registered takes it away again: after the test's
    cleanups the cluster holds exactly the bindings it held before, and
    neither step fails the test. *)
Theorem role_binding_round_trip (b : ClusterRoleBinding) (t : T S) :
  present (cluster t) (Name b) = false →
  cleanups t = [] →
  let t1 := (addTestClusterRoleBinding b t).2 in
  let t2 := runCleanups t1 in
  (addTestClusterRoleBinding b t).1 = Some tt ∧
  present (cluster t1) (Name b) = true ∧
  failed t2 = failed t ∧
  cleanups t2 = [] ∧
  ∀ n, present (cluster t2) n = present (cluster t) n.
Proof.
  intros Hp Hc.
  destruct (helper_when_absent b t Hp) as (s1 & -> & Hs1). rewrite Hc.
  cbn [fst snd]. unfold runCleanups. cbn [cluster calls cleanups failed app rev runEach].
  assert (present s1 (Name b) = true) as Hp1.
  { rewrite Hs1. by rewrite decide_True. }
  destruct (cleanup_when_present (Name b)
              (mkT s1 (calls t ++ [CalledGet (Name b); CalledCreate b]) [] (failed t)) Hp1)
    as (s2 & -> & Hs2).
  cbn [fst snd cluster calls cleanups failed]. split_and!; try done.
  intros n. rewrite Hs2, Hs1. cbn [cluster]. case_decide; [by subst|done].
Qed.

(** X9: on a cluster that already holds a binding of that name, the helper
    creates nothing, and yet the cleanup it registered deletes that binding:
    after the test's cleanups the binding is gone, although the test did not
    make it. *)
Theorem cleanup_deletes_preexisting_binding (b : ClusterRoleBinding) (t : T S) :
  present (cluster t) (Name b) = true →
  cleanups t = [] →
  let t1 := (addTestClusterRoleBinding b t).2 in
  let t2 := runCleanups t1 in
  (addTestClusterRoleBinding b t).1 = Some tt ∧
  created t1 = created t ∧
  failed t2 = failed t ∧
  present (cluster t2) (Name b) = false ∧
  ∀ n, n ≠ Name b → present (cluster t2) n = present (cluster t) n.
Proof.
  intros Hp Hc. rewrite (helper_when_present b t Hp), Hc.
  cbn [fst snd]. unfold runCleanups. cbn [cluster calls cleanups failed app rev runEach].
  destruct (cleanup_when_present (Name b)
              (mkT (cluster t) (calls t ++ [CalledGet (Name b)]) [] (failed t)) Hp)
    as (s2 & -> & Hs2).
  cbn [fst snd cluster calls cleanups failed]. split_and!; try done.
  - unfold created. cbn [calls]. rewrite omap_app. simpl. by rewrite app_nil_r.
  - rewrite Hs2. by rewrite decide_True.
  - intros n Hn. rewrite Hs2. by rewrite decide_False.
Qed.

(** X10: the helper does not remember what it registered.  Called twice for
    the same binding in one test, it registers two cleanups; the first to run
    deletes the binding, the second finds nothing to delete, and the test
    ends failed. *)
Theorem double_registration_fails_cleanup (b : ClusterRoleBinding) (t : T S) :
  cleanups t = [] →
  let t1 := (addTestClusterRoleBinding b t).2 in
  let t2 := (addTestClusterRoleBinding b t1).2 in
  let t3 := runCleanups t2 in
  (addTestClusterRoleBinding b t).1 = Some tt ∧
  (addTestClusterRoleBinding b t1).1 = Some tt ∧
  cleanups t2 = [DeleteBinding (Name b); DeleteBinding (Name b)] ∧
  failed t3 = true ∧
  present (cluster t3) (Name b) = false.
Proof.
  intros Hc.
  assert (∃ s1 calls1,
            addTestClusterRoleBinding b t =
              (Some tt, mkT s1 calls1 [DeleteBinding (Name b)] (failed t)) ∧
            present s1 (Name b) = true) as (s1 & calls1 & -> & Hp1).
  { destruct (present (cluster t) (Name b)) eqn:Hp.
    - rewrite (helper_when_present b t Hp), Hc. by eexists _, _.
    - destruct (helper_when_absent b t Hp) as (s1 & -> & Hs1). rewrite Hc.
      eexists _, _. split; [done|]. rewrite Hs1. by rewrite decide_True. }
  cbn [fst snd].
  rewrite (helper_when_present b (mkT s1 calls1 [DeleteBinding (Name b)] (failed t)) Hp1).
  cbn [fst snd cluster calls cleanups failed app].
  unfold runCleanups. cbn [cluster calls cleanups failed app rev runEach].
  destruct (cleanup_when_present (Name b)
              (mkT s1 (calls1 ++ [CalledGet (Name b)]) [] (failed t)) Hp1)
    as (s2 & -> & Hs2).
  cbn [fst snd cluster calls cleanups failed]. set (t2 := mkT s2 _ _ _).
  assert (present (cluster t2) (Name b) = false) as Hp2.
  { cbn [cluster t2]. rewrite Hs2. by rewrite decide_True. }
  destruct (cleanup_when_absent (Name b) t2 Hp2) as (s3 & -> & Hs3).
  cbn [fst snd cluster calls cleanups failed]. split_and!; try done.
  by rewrite Hs3.
Qed.

(** X11: the user helper and the group helper use different binding names.
    On a cluster holding neither, calling one after the other creates two
    bindings, each with the one subject it was asked for and the [view]
    cluster role, and the two registered cleanups restore the cluster. *)
Theorem user_and_group_bindings_coexist (testUsername testGroup : string) (t : T S) :
  present (cluster t) "integration-test-user-readonly-role-binding" = false →
  present (cluster t) "integration-test-group-readonly-role-binding" = false →
  cleanups t = [] →
  let r1 := addTestClusterUserCanViewEverythingRoleBinding testUsername t in
  let r2 := addTestClusterGroupCanViewEverythingRoleBinding testGroup r1.2 in
  let t3 := runCleanups r2.2 in
  r1.1 = Some tt ∧ r2.1 = Some tt ∧
  created r2.2 =
    (created t ++
     [mkBinding "integration-test-user-readonly-role-binding"
        [("User", "rbac.authorization.k8s.io", testUsername)]
        ("ClusterRole", "rbac.authorization.k8s.io", "view");
      mkBinding "integration-test-group-readonly-role-binding"
        [("Group", "rbac.authorization.k8s.io", testGroup)]
        ("ClusterRole", "rbac.authorization.k8s.io", "view")])%list ∧
  present (cluster r2.2) "integration-test-user-readonly-role-binding" = true ∧
  present (cluster r2.2) "integration-test-group-readonly-role-binding" = true ∧
  failed t3 = failed t ∧
  ∀ n, present (cluster t3) n = present (cluster t) n.
Proof.
  intros Hu Hg Hc.
  unfold addTestClusterUserCanViewEverythingRoleBinding,
    addTestClusterGroupCanViewEverythingRoleBinding.
  set (ub := mkBinding "integration-test-user-readonly-role-binding" _ _).
  set (gb := mkBinding "integration-test-group-readonly-role-binding" _ _).
  destruct (helper_when_absent ub t Hu) as (s1 & -> & Hs1). rewrite Hc.
  cbn [fst snd app].
  set (t1 := mkT s1 _ _ _).
  assert (present (cluster t1) (Name gb) = false) as Hg1.
  { cbn [cluster t1]. rewrite Hs1. by rewrite decide_False. }
  destruct (helper_when_absent gb t1 Hg1) as (s2 & -> & Hs2).
  cbn [fst snd cluster calls cleanups failed t1 app].
  unfold runCleanups. cbn [cluster calls cleanups failed app rev runEach].
  set (t2 := mkT s2 _ [] _).
  assert (present (cluster t2) (Name gb) = true) as Hg2.
  { cbn [cluster t2]. rewrite Hs2. by rewrite decide_True. }
  destruct (cleanup_when_present (Name gb) t2 Hg2) as (s3 & -> & Hs3).
  cbn [fst snd]. set (t3 := mkT s3 _ _ _).
  assert (present (cluster t3) (Name ub) = true) as Hu3.
  { cbn [cluster t3 t2] in *. rewrite Hs3, decide_False by done.
    rewrite Hs2, decide_False by done. rewrite Hs1. by rewrite decide_True. }
  destruct (cleanup_when_present (Name ub) t3 Hu3) as (s4 & -> & Hs4).
  cbn [fst snd cluster calls cleanups failed t3 t2 t1] in *.
  split_and!; try done.
  - unfold created. cbn [calls]. rewrite !omap_app. simpl.
    by rewrite <- app_assoc.
  - pose proof (Hs2 "integration-test-user-readonly-role-binding") as ->.
    rewrite decide_False by done.
    pose proof (Hs1 "integration-test-user-readonly-role-binding") as ->.
    by rewrite decide_True.
  - intros n. rewrite (Hs4 n), (Hs3 n), (Hs2 n), (Hs1 n). cbn [Name ub gb].
    repeat case_decide; subst; done.
Qed.

End LawfulCluster.

Lemma fakeCluster_lawful : @library.Lawful _ fakeCluster present_in.
Proof.
  unfold present_in. split; simpl.
  - intros s n Hp%bool_decide_eq_true. by rewrite decide_True.
  - intros s n Hp%bool_decide_eq_false. rewrite decide_False by done. by eexists.
  - intros s b Hp%bool_decide_eq_false. rewrite decide_False by done.
    eexists. split; [done|]. intros n.
    destruct (decide (n = library.Name b)) as [->|Hn].
    + apply bool_decide_eq_true. apply elem_of_union_l. by apply elem_of_singleton.
    + apply bool_decide_ext. rewrite elem_of_union, elem_of_singleton. tauto.
  - intros s n Hp%bool_decide_eq_true. rewrite decide_True by done.
    eexists. split; [done|]. intros m.
    destruct (decide (m = n)) as [->|Hm].
    + apply bool_decide_eq_false. rewrite elem_of_difference, elem_of_singleton. tauto.
    + apply bool_decide_ext. rewrite elem_of_difference, elem_of_singleton. tauto.
  - intros s n Hp%bool_decide_eq_false. rewrite decide_False by done.
    by eexists _, _.
Qed.

Lemma role_binding_round_trip_witness :
  let t1 := (@library.addTestClusterRoleBinding _ fakeCluster viewBinding sharedClusterTest).2 in
  let t2 := @library.runCleanups _ fakeCluster t1 in
  (@library.addTestClusterRoleBinding _ fakeCluster viewBinding sharedClusterTest).1
    = Some tt ∧
  present_in (library.cluster t1) (library.Name viewBinding) = true ∧
  library.failed t2 = library.failed sharedClusterTest ∧
  library.cleanups t2 = [] ∧
  ∀ n, present_in (library.cluster t2) n
       = present_in (library.cluster sharedClusterTest) n.
Proof.
  apply (@role_binding_round_trip _ fakeCluster present_in fakeCluster_lawful
           viewBinding sharedClusterTest); reflexivity.
Defined.

Lemma cleanup_deletes_preexisting_binding_witness :
  let t1 := (@library.addTestClusterRoleBinding _ fakeCluster viewBinding rerunTest).2 in
  let t2 := @library.runCleanups _ fakeCluster t1 in
  (@library.addTestClusterRoleBinding _ fakeCluster viewBinding rerunTest).1 = Some tt ∧
  @library.created _ t1 = @library.created _ rerunTest ∧
  library.failed t2 = library.failed rerunTest ∧
  present_in (library.cluster t2) (library.Name viewBinding) = false ∧
  ∀ n, n ≠ library.Name viewBinding →
       present_in (library.cluster t2) n = present_in (library.cluster rerunTest) n.
Proof.
  apply (@cleanup_deletes_preexisting_binding _ fakeCluster present_in fakeCluster_lawful
           viewBinding rerunTest); reflexivity.
Defined.

Lemma double_registration_fails_cleanup_witness :
  let t1 := (@library.addTestClusterRoleBinding _ fakeCluster viewBinding freshTest).2 in
  let t2 := (@library.addTestClusterRoleBinding _ fakeCluster viewBinding t1).2 in
  let t3 := @library.runCleanups _ fakeCluster t2 in
  (@library.addTestClusterRoleBinding _ fakeCluster viewBinding freshTest).1 = Some tt ∧
  (@library.addTestClusterRoleBinding _ fakeCluster viewBinding t1).1 = Some tt ∧
  library.cleanups t2
    = [library.DeleteBinding (library.Name viewBinding);
       library.DeleteBinding (library.Name viewBinding)] ∧
  library.failed t3 = true ∧
  present_in (library.cluster t3) (library.Name viewBinding) = false.
Proof.
  apply (@double_registration_fails_cleanup _ fakeCluster present_in fakeCluster_lawful
           viewBinding freshTest); reflexivity.
Defined.

Lemma user_and_group_bindings_coexist_witness :
  let r1 := @library.addTestClusterUserCanViewEverythingRoleBinding _ fakeCluster
              "alice" sharedClusterTest in
  let r2 := @library.addTestClusterGroupCanViewEverythingRoleBinding _ fakeCluster
              "admins" r1.2 in
  let t3 := @library.runCleanups _ fakeCluster r2.2 in
  r1.1 = Some tt ∧ r2.1 = Some tt ∧
  @library.created _ r2.2 =
    (@library.created _ sharedClusterTest ++
     [library.mkBinding "integration-test-user-readonly-role-binding"
        [("User", "rbac.authorization.k8s.io", "alice")]
        ("ClusterRole", "rbac.authorization.k8s.io", "view");
      library.mkBinding "integration-test-group-readonly-role-binding"
        [("Group", "rbac.authorization.k8s.io", "admins")]
        ("ClusterRole", "rbac.authorization.k8s.io", "view")])%list ∧
  present_in (library.cluster r2.2) "integration-test-user-readonly-role-binding" = true ∧
  present_in (library.cluster r2.2) "integration-test-group-readonly-role-binding" = true ∧
  library.failed t3 = library.failed sharedClusterTest ∧
  ∀ n, present_in (library.cluster t3) n
       = present_in (library.cluster sharedClusterTest) n.
Proof.
  apply (@user_and_group_bindings_coexist _ fakeCluster present_in fakeCluster_lawful
           "alice" "admins" sharedClusterTest); reflexivity.
Defined.

(** The round trip, run: an unrelated binding survives, the test's own is gone. *)
Example role_binding_round_trip_run :
  library.cluster
    (@library.runCleanups _ fakeCluster
       (@library.addTestClusterRoleBinding _ fakeCluster viewBinding sharedClusterTest).2)
    = {[otherBindingName]}.
Proof. reflexivity. Qed.

(** A test that found the binding in place takes it away all the same. *)
Example preexisting_binding_deleted_run :
  @library.runCleanups _ fakeCluster
    (@library.addTestClusterRoleBinding _ fakeCluster viewBinding rerunTest).2
    = library.mkT ∅ [library.CalledGet bindingName; library.CalledDelete bindingName]
        [] false.
Proof. reflexivity. Qed.

(** ** [AccessAsUserTest] and [AccessAsGroupTest] *)

Section AccessTests.
Import library.
Context {S : Type} `{ClusterRoleBindings S} `{Namespaces S}.

(** A run of the helper that was not stopped registered its cleanup and
    left the failure mark alone. *)
Lemma helper_not_stopped (b : ClusterRoleBinding) (t : T S) :
  (addTestClusterRoleBinding b t).1 = Some tt →
  cleanups (addTestClusterRoleBinding b t).2
    = (cleanups t ++ [DeleteBinding (Name b)])%list ∧
  failed (addTestClusterRoleBinding b t).2 = failed t.
Proof.
  unfold addTestClusterRoleBinding, andThen, client_Get, client_Create, Cleanup,
    require_NoError, require_Equal, require_True, FailNow.
  cbn [cluster calls cleanups failed].
  destruct (Get (cluster t) (Name b)) as [[code msg|msg]|];
    cbn [cluster calls cleanups failed fst snd]; try done.
  destruct (bool_decide (StatusNotFound = code));
    cbn [cluster calls cleanups failed fst snd]; try done.
  destruct (Create (cluster t) b) as [[err|] s'];
    cbn [cluster calls cleanups failed fst snd]; done.
Qed.

(** What the polling leaves behind: every evaluation made one [List], all
    but possibly the last returned an error, and the captured variables are
    those of the last evaluation. *)
Lemma poll_spec (ticks : nat) (vars : ListResult) (a : AT S) :
  ∃ earlier : list ListResult,
    Forall (λ r, list_err r ≠ None) earlier ∧
    calls (base (poll ticks vars a).2) = calls (base a) ∧
    cleanups (base (poll ticks vars a).2) = cleanups (base a) ∧
    failed (base (poll ticks vars a).2) = failed (base a) ∧
    if (poll ticks vars a).1.1
    then listed (poll ticks vars a).2
           = (listed a ++ earlier ++ [(poll ticks vars a).1.2])%list ∧
         list_err (poll ticks vars a).1.2 = None ∧
         (length earlier < ticks)%nat
    else listed (poll ticks vars a).2 = (listed a ++ earlier)%list ∧
         length earlier = ticks.
Proof.
  revert vars a. induction ticks as [|n IH]; intros vars a.
  - exists []. simpl. by rewrite app_nil_r.
  - cbn [poll]. unfold canListNamespaces.
    destruct (ListNamespaces (cluster (base a))) as [res s'].
    destruct (list_err res) as [e|] eqn:Herr.
    + set (a1 := mkAT _ _).
      destruct (IH res a1) as (earlier & Hall & Hc & Hcl & Hf & Hl).
      exists (res :: earlier). split_and!; try done.
      * constructor; [by rewrite Herr|done].
      * destruct (poll n res a1).1.1.
        -- destruct Hl as (Hl & ? & ?). split_and!; [|done|simpl; lia].
           rewrite Hl. cbn [listed a1]. by rewrite <- !app_assoc.
        -- destruct Hl as (Hl & ?). split; [|simpl; lia].
           rewrite Hl. cbn [listed a1]. by rewrite <- !app_assoc.
    + exists []. cbn [fst snd base listed calls cleanups failed].
      split_and!; try done. simpl; lia.
Qed.

(** The part common to both tests: when the polling and the checks after it
    end with the test neither stopped nor failed, the last [List] returned
    no error and a list that is not empty, and every [List] before it
    returned an error. *)
Lemma polling_passes_only_after_successful_list (ticks : nat) (a : AT S) :
  let r := thenA (Eventually ticks (mkListResult None None)) requireNamespaces a in
  r.1 = Some tt →
  failed (base r.2) = false →
  cleanups (base r.2) = cleanups (base a) ∧
  ∃ earlier items,
    listed r.2 = (listed a ++ earlier ++ [mkListResult (Some items) None])%list ∧
    items ≠ [] ∧
    Forall (λ res, list_err res ≠ None) earlier ∧
    (length earlier < ticks)%nat.
Proof.
  unfold thenA, Eventually.
  destruct (poll_spec ticks (mkListResult None None) a)
    as (earlier & Hall & Hc & Hcl & Hf & Hl).
  destruct (poll ticks (mkListResult None None) a) as [[ok vars] a'].
  cbn [fst snd] in *. destruct ok.
  - destruct Hl as (Hl & Herr & Hlen).
    unfold requireNamespaces, thenA, lift, require_NoError, require_NotNil,
      require_NotEmpty, require_True, FailNow.
    rewrite Herr. destruct vars as [[items|] err]; cbn in Herr |- *; subst err.
    + destruct items as [|i items]; cbn.
      * intros [=].
      * intros _ _. destruct a' as [[? ? ? ?] ?]. cbn in *.
        split; [done|]. exists earlier, (i :: items). by subst.
    + intros [=].
  - unfold requireNamespaces, thenA, lift, require_NoError, require_NotNil,
      require_NotEmpty, require_True, FailNow.
    cbn [base listed cluster calls cleanups failed].
    destruct (list_err vars); cbn; [intros [=]|].
    destruct (list_response vars) as [[|i items]|]; cbn;
      intros; discriminate.
Qed.

(** X12: [AccessAsUserTest] can only pass after the client under test has
    listed at least one namespace without error.  When the test is neither
    stopped nor failed, the role-binding cleanup of the user binding has been
    registered, the last [List] returned no error and a non-empty list, and
    all [List] calls before it returned errors. *)
Theorem AccessAsUserTest_passes_only_after_successful_list
    (testUsername : string) (ticks : nat) (a : AT S) :
  let r := AccessAsUserTest testUsername ticks a in
  r.1 = Some tt →
  failed (base r.2) = false →
  cleanups (base r.2)
    = (cleanups (base a)
       ++ [DeleteBinding "integration-test-user-readonly-role-binding"])%list ∧
  ∃ earlier items,
    listed r.2 = (listed a ++ earlier ++ [mkListResult (Some items) None])%list ∧
    items ≠ [] ∧
    Forall (λ res, list_err res ≠ None) earlier ∧
    (length earlier < ticks)%nat.
Proof.
  cbv zeta. unfold AccessAsUserTest, addTestClusterUserCanViewEverythingRoleBinding.
  set (b := mkBinding _ _ _).
  pose proof (helper_not_stopped b (base a)) as Hh.
  assert (∀ (k : AccessTest unit),
            thenA (lift (addTestClusterRoleBinding b)) (λ _, k) a =
            match addTestClusterRoleBinding b (base a) with
            | (Some _, t1) => k (mkAT t1 (listed a))
            | (None, t1) => (None, mkAT t1 (listed a))
            end) as ->.
  { intros k. unfold thenA, lift.
    by destruct (addTestClusterRoleBinding b (base a)) as [[[]|] t1]. }
  destruct (addTestClusterRoleBinding b (base a)) as [[[]|] t1]; cbn [fst snd] in *.
  2:{ intros [=]. }
  destruct (Hh eq_refl) as [Hcl _].
  intros Hr Hf.
  destruct (polling_passes_only_after_successful_list ticks (mkAT t1 (listed a)) Hr Hf)
    as (Hcl' & earlier & items & Hl & Hi & Hall & Hlen).
  cbn [base listed] in *. split; [exact (eq_trans Hcl' Hcl)|].
  by exists earlier, items.
Qed.

(** X13: the same for [AccessAsGroupTest], with the cleanup of the group
    binding. *)
Theorem AccessAsGroupTest_passes_only_after_successful_list
    (testGroup : string) (ticks : nat) (a : AT S) :
  let r := AccessAsGroupTest testGroup ticks a in
  r.1 = Some tt →
  failed (base r.2) = false →
  cleanups (base r.2)
    = (cleanups (base a)
       ++ [DeleteBinding "integration-test-group-readonly-role-binding"])%list ∧
  ∃ earlier items,
    listed r.2 = (listed a ++ earlier ++ [mkListResult (Some items) None])%list ∧
    items ≠ [] ∧
    Forall (λ res, list_err res ≠ None) earlier ∧
    (length earlier < ticks)%nat.
Proof.
  cbv zeta. unfold AccessAsGroupTest, addTestClusterGroupCanViewEverythingRoleBinding.
  set (b := mkBinding _ _ _).
  pose proof (helper_not_stopped b (base a)) as Hh.
  assert (∀ (k : AccessTest unit),
            thenA (lift (addTestClusterRoleBinding b)) (λ _, k) a =
            match addTestClusterRoleBinding b (base a) with
            | (Some _, t1) => k (mkAT t1 (listed a))
            | (None, t1) => (None, mkAT t1 (listed a))
            end) as ->.
  { intros k. unfold thenA, lift.
    by destruct (addTestClusterRoleBinding b (base a)) as [[[]|] t1]. }
  destruct (addTestClusterRoleBinding b (base a)) as [[[]|] t1]; cbn [fst snd] in *.
  2:{ intros [=]. }
  destruct (Hh eq_refl) as [Hcl _].
  intros Hr Hf.
  destruct (polling_passes_only_after_successful_list ticks (mkAT t1 (listed a)) Hr Hf)
    as (Hcl' & earlier & items & Hl & Hi & Hall & Hlen).
  cbn [base listed] in *. split; [exact (eq_trans Hcl' Hcl)|].
  by exists earlier, items.
Qed.

End AccessTests.

Lemma AccessAsUserTest_passes_only_after_successful_list_witness :
  let r := @library.AccessAsUserTest _ fakeCluster healthyNamespaces "alice" 40 startAccess in
  library.cleanups (library.base r.2)
    = (library.cleanups (library.base startAccess)
       ++ [library.DeleteBinding "integration-test-user-readonly-role-binding"])%list ∧
  ∃ earlier items,
    library.listed r.2
      = (library.listed startAccess ++ earlier
         ++ [library.mkListResult (Some items) None])%list ∧
    items ≠ [] ∧
    Forall (λ res, library.list_err res ≠ None) earlier ∧
    (length earlier < 40)%nat.
Proof.
  apply (@AccessAsUserTest_passes_only_after_successful_list _ fakeCluster
           healthyNamespaces "alice" 40 startAccess); reflexivity.
Defined.

Lemma AccessAsGroupTest_passes_only_after_successful_list_witness :
  let r := @library.AccessAsGroupTest _ fakeCluster healthyNamespaces "admins" 40 startAccess in
  library.cleanups (library.base r.2)
    = (library.cleanups (library.base startAccess)
       ++ [library.DeleteBinding "integration-test-group-readonly-role-binding"])%list ∧
  ∃ earlier items,
    library.listed r.2
      = (library.listed startAccess ++ earlier
         ++ [library.mkListResult (Some items) None])%list ∧
    items ≠ [] ∧
    Forall (λ res, library.list_err res ≠ None) earlier ∧
    (length earlier < 40)%nat.
Proof.
  apply (@AccessAsGroupTest_passes_only_after_successful_list _ fakeCluster
           healthyNamespaces "admins" 40 startAccess); reflexivity.
Defined.

(** A client that is never authorized: three evaluations, three errors, and
    [require.NoError] stops the failed test. *)
Example access_test_unauthorized_run :
  let r := @library.AccessAsUserTest _ fakeCluster unauthorizedNamespaces "alice" 3
             startAccess in
  r.1 = None ∧
  library.failed (library.base r.2) = true ∧
  length (library.listed r.2) = 3%nat.
Proof. by split_and!. Qed.

(** No evaluation fits before the timeout: the variables are still nil, so
    [require.NoError] passes and [require.NotNil] stops the failed test. *)
Example access_test_no_tick_run :
  @library.AccessAsUserTest _ fakeCluster healthyNamespaces "alice" 0 startAccess =
    (None,
     library.mkAT
       (library.mkT {["integration-test-user-readonly-role-binding"]}
          [library.CalledGet "integration-test-user-readonly-role-binding";
           library.CalledCreate
             (library.mkBinding "integration-test-user-readonly-role-binding"
                [("User", "rbac.authorization.k8s.io", "alice")]
                ("ClusterRole", "rbac.authorization.k8s.io", "view"))]
          [library.DeleteBinding "integration-test-user-readonly-role-binding"] true)
       []).
Proof. reflexivity. Qed.

(** ** Temporary kubeconfig files and [kubectl] *)

Section Files.
Import library.
Context {F : Type} `{OS F}.

(** X14: [writeStringToTempFile] registers the removal of the temporary
    file before it writes to it, and returns the file exactly when writing
    and closing both succeed.  When the file cannot be created the test
    stops with nothing registered and nothing written.  Otherwise exactly one
    cleanup, removing that very file, is registered, whether or not writing
    and closing succeed, and the content is written to that file.  If the
    write returns an error the test stops there, failed, and the file is not
    closed; if the write succeeds the file is closed, and the test stops,
    failed, when closing returns an error; only when neither returns an
    error is the file's name returned, with the failure mark untouched. *)
Theorem writeStringToTempFile_registers_removal_first
    (filename kubeConfigYAML : string) (t : FT F) :
  let r := writeStringToTempFile filename kubeConfigYAML t in
  match (TempFile (machine t) filename).1 with
  | Err e =>
      r.1 = None ∧ file_failed r.2 = true ∧
      file_cleanups r.2 = file_cleanups t ∧
      os_calls r.2 = (os_calls t ++ [CalledTempFile filename])%list ∧
      machine r.2 = (TempFile (machine t) filename).2
  | Ok f =>
      let written := WriteString (TempFile (machine t) filename).2 f kubeConfigYAML in
      let closed := Close written.2 f in
      file_cleanups r.2 = (file_cleanups t ++ [RemoveFile f])%list ∧
      (∃ rest,
          os_calls r.2 = (os_calls t ++ [CalledTempFile filename;
                                         CalledWriteString f kubeConfigYAML] ++ rest)%list ∧
          (rest = [] ∨ rest = [CalledClose f])) ∧
      (r.1 = None → file_failed r.2 = true) ∧
      (∀ f', r.1 = Some f' →
             f' = f ∧ file_failed r.2 = file_failed t ∧
             os_calls r.2 = (os_calls t ++ [CalledTempFile filename;
                                            CalledWriteString f kubeConfigYAML;
                                            CalledClose f])%list) ∧
      match written.1 with
      | Some _ =>
          r.1 = None ∧ file_failed r.2 = true ∧
          machine r.2 = written.2 ∧
          os_calls r.2 = (os_calls t ++ [CalledTempFile filename;
                                         CalledWriteString f kubeConfigYAML])%list
      | None =>
          machine r.2 = closed.2 ∧
          os_calls r.2 = (os_calls t ++ [CalledTempFile filename;
                                         CalledWriteString f kubeConfigYAML;
                                         CalledClose f])%list ∧
          match closed.1 with
          | Some _ => r.1 = None ∧ file_failed r.2 = true
          | None => r.1 = Some f ∧ file_failed r.2 = file_failed t
          end
      end
  end.
Proof.
  unfold writeStringToTempFile, thenF, os_TempFile, os_WriteString, os_Close,
    file_Cleanup, file_require_NoError.
  destruct (TempFile (machine t) filename) as [[f|e] m1];
    cbn [fst snd machine os_calls file_cleanups file_failed].
  2:{ done. }
  destruct (WriteString m1 f kubeConfigYAML) as [[e|] m2];
    cbn [fst snd machine os_calls file_cleanups file_failed].
  { split_and!; try done.
    - exists []. split; [by rewrite <- !app_assoc|by left].
    - by rewrite <- !app_assoc. }
  destruct (Close m2 f) as [[e|] m3];
    cbn [fst snd machine os_calls file_cleanups file_failed].
  - split_and!; try done.
    + exists [CalledClose f]. split; [by rewrite <- !app_assoc|by right].
    + by rewrite <- !app_assoc.
  - split_and!; try done.
    + exists [CalledClose f]. split; [by rewrite <- !app_assoc|by right].
    + intros f' [= <-]. split_and!; try done. by rewrite <- !app_assoc.
    + by rewrite <- !app_assoc.
Qed.


End Files.

(** On a machine where [kubectl] fails, its output and error come back and
    the test goes on, with one file to remove at the end. *)
Example kubectl_failure_is_returned :
  @library.runKubectlGetNamespaces _ fakeOS "apiVersion: v1" freshMachine =
    (Some ("error: You must be logged in to the server (Unauthorized)",
           Some (ErrNew "exit status 1")),
     library.mkFT {["/tmp/pinniped-generated-kubeconfig-*" := "apiVersion: v1"]}
       [library.CalledTempFile "pinniped-generated-kubeconfig-*";
        library.CalledWriteString "/tmp/pinniped-generated-kubeconfig-*" "apiVersion: v1";
        library.CalledClose "/tmp/pinniped-generated-kubeconfig-*";
        library.CalledCommand "kubectl"
          ["get"; "namespace"; "--kubeconfig"; "/tmp/pinniped-generated-kubeconfig-*"]]
       [library.RemoveFile "/tmp/pinniped-generated-kubeconfig-*"] false).
Proof. reflexivity. Qed.

(** Without room for the file nothing is registered and [kubectl] is not run. *)
Example kubectl_not_run_without_file :
  @library.runKubectlGetNamespaces _ fullDiskOS "apiVersion: v1" freshMachine =
    (None,
     library.mkFT ∅ [library.CalledTempFile "pinniped-generated-kubeconfig-*"] [] true).
Proof. reflexivity. Qed.

(** The registered removal leaves no temporary file behind. *)
Example temp_file_removed_at_cleanup :
  library.machine
    (@library.run_file_cleanup _ fakeOS
       (library.RemoveFile "/tmp/pinniped-generated-kubeconfig-*")
       (@library.runKubectlGetNamespaces _ fakeOS "apiVersion: v1" freshMachine).2).2
    = ∅.
Proof. reflexivity. Qed.

Lemma writeStringToTempFile_registers_removal_first_witness :
  let r := @library.writeStringToTempFile _ fakeOS
             "pinniped-generated-kubeconfig-*" "apiVersion: v1" freshMachine in
  match (@library.TempFile _ fakeOS (library.machine freshMachine)
           "pinniped-generated-kubeconfig-*").1 with
  | Err e =>
      r.1 = None ∧ library.file_failed r.2 = true ∧
      library.file_cleanups r.2 = library.file_cleanups freshMachine ∧
      library.os_calls r.2
        = (library.os_calls freshMachine
           ++ [library.CalledTempFile "pinniped-generated-kubeconfig-*"])%list ∧
      library.machine r.2
        = (@library.TempFile _ fakeOS (library.machine freshMachine)
             "pinniped-generated-kubeconfig-*").2
  | Ok f =>
      let written :=
        @library.WriteString _ fakeOS
          (@library.TempFile _ fakeOS (library.machine freshMachine)
             "pinniped-generated-kubeconfig-*").2 f "apiVersion: v1" in
      let closed := @library.Close _ fakeOS written.2 f in
      library.file_cleanups r.2
        = (library.file_cleanups freshMachine ++ [library.RemoveFile f])%list ∧
      (∃ rest,
          library.os_calls r.2
            = (library.os_calls freshMachine
               ++ [library.CalledTempFile "pinniped-generated-kubeconfig-*";
                   library.CalledWriteString f "apiVersion: v1"] ++ rest)%list ∧
          (rest = [] ∨ rest = [library.CalledClose f])) ∧
      (r.1 = None → library.file_failed r.2 = true) ∧
      (∀ f', r.1 = Some f' →
             f' = f ∧ library.file_failed r.2 = library.file_failed freshMachine ∧
             library.os_calls r.2
               = (library.os_calls freshMachine
                  ++ [library.CalledTempFile "pinniped-generated-kubeconfig-*";
                      library.CalledWriteString f "apiVersion: v1";
                      library.CalledClose f])%list) ∧
      match written.1 with
      | Some _ =>
          r.1 = None ∧ library.file_failed r.2 = true ∧
          library.machine r.2 = written.2 ∧
          library.os_calls r.2
            = (library.os_calls freshMachine
               ++ [library.CalledTempFile "pinniped-generated-kubeconfig-*";
                   library.CalledWriteString f "apiVersion: v1"])%list
      | None =>
          library.machine r.2 = closed.2 ∧
          library.os_calls r.2
            = (library.os_calls freshMachine
               ++ [library.CalledTempFile "pinniped-generated-kubeconfig-*";
                   library.CalledWriteString f "apiVersion: v1";
                   library.CalledClose f])%list ∧
          match closed.1 with
          | Some _ => r.1 = None ∧ library.file_failed r.2 = true
          | None => r.1 = Some f
                    ∧ library.file_failed r.2 = library.file_failed freshMachine
          end
      end
  end.
Proof.
  apply (@writeStringToTempFile_registers_removal_first _ fakeOS
           "pinniped-generated-kubeconfig-*" "apiVersion: v1" freshMachine).
Defined.


(** A failing write stops the test after the removal was registered and
    before the file is closed. *)
Example failed_write_still_registers_removal :
  @library.writeStringToTempFile _ readOnlyOS
    "pinniped-generated-kubeconfig-*" "apiVersion: v1" freshMachine =
    (None,
     library.mkFT {["/tmp/pinniped-generated-kubeconfig-*" := ""]}
       [library.CalledTempFile "pinniped-generated-kubeconfig-*";
        library.CalledWriteString "/tmp/pinniped-generated-kubeconfig-*" "apiVersion: v1"]
       [library.RemoveFile "/tmp/pinniped-generated-kubeconfig-*"] true).
Proof. reflexivity. Qed.
